(** * TryFit: the retry wrappers around the image-generation upstream

    A shallow embedding of the server flows of the repository
    ([single-view-composite.ts], [generate-ai-model.ts],
    [multi-angle-composite.ts]) and of the try-on handler of [page.tsx].

    The flows are asynchronous JavaScript: they call [ai.generate], sleep
    with [setTimeout], throw and catch.  They are embedded in a small
    state-and-exception monad whose state records the upstream invocations
    and the waits, in the order in which they happen.  Console output is
    not part of the recorded trace. *)

From Stdlib Require Import String Ascii List Arith Bool Lia.
Import ListNotations.
Open Scope string_scope.

(** ** JavaScript values and the string operations the code uses *)

Module Js.

(** What a [catch] clause can receive. *)
Inductive Thrown : Type :=
| Undefined                          (* [throw undefined] *)
| ErrorObj (message : string)        (* an instance of [Error] *)
| NonError (repr : string).          (* any other thrown value *)

(** [s.includes(sub)] *)
Fixpoint includes (s sub : string) : bool :=
  match s with
  | EmptyString => String.prefix sub s
  | String _ rest => String.prefix sub s || includes rest sub
  end.

(** [v || d] on a possibly undefined string: the empty string is falsy. *)
Definition or_else (v : option string) (d : string) : string :=
  match v with
  | None => d
  | Some EmptyString => d
  | Some s => s
  end.

(** Truthiness of [string | null]. *)
Definition truthy (v : option string) : bool :=
  match v with
  | None => false
  | Some EmptyString => false
  | Some _ => true
  end.

(** [obj[key]] on an object given by its own properties; [None] is
    [undefined]. *)
Fixpoint get (obj : list (string * string)) (key : string) : option string :=
  match obj with
  | [] => None
  | (k, v) :: rest => if String.eqb k key then Some v else get rest key
  end.

(** A possibly undefined string interpolated in a template literal. *)
Definition interpolate (v : option string) : string :=
  match v with
  | Some s => s
  | None => "undefined"
  end.

(** [xs.join(sep)] *)
Fixpoint join (sep : string) (xs : list string) : string :=
  match xs with
  | [] => ""
  | [x] => x
  | x :: rest => x ++ sep ++ join sep rest
  end.

(** [error instanceof Error && error.message.includes('503')] *)
Definition is503 (error : Thrown) : bool :=
  match error with
  | ErrorObj message => includes message "503"
  | _ => false
  end.

(** The [TypeError] V8 raises for [media.url] when [media] is [null]. *)
Definition nullDeref : Thrown :=
  ErrorObj "Cannot read properties of null (reading 'url')".

End Js.

(** ** The upstream: [ai.generate] *)

Inductive Part : Type :=
| MediaPart (url : string)             (* [{media: {url}}] *)
| TextPart (text : string).            (* [{text}] *)

Inductive Prompt : Type :=
| PromptParts (parts : list Part)
| PromptString (text : string).

Record GenerateOptions : Type := {
  model : string;
  prompt : Prompt;
  responseModalities : list string
}.

Record Media : Type := { url : string }.

(** The [media] field of a generate response is [null] when the response
    carries no image. *)
Record GenerateResponse : Type := { media : option Media }.

Inductive Settled (A : Type) : Type :=
| Fulfilled (value : A)
| Rejected (reason : Js.Thrown).
Arguments Fulfilled {A} value.
Arguments Rejected {A} reason.

(** An upstream behaviour: what the [n]-th invocation of [ai.generate]
    (counted from 1) settles to, given its options. *)
Definition Upstream : Type := nat -> GenerateOptions -> Settled GenerateResponse.

(** A promise that has been started: when it settles and how.  Only the
    order of the settling times matters. *)
Record Promise (A : Type) : Type := {
  settledAt : nat;
  outcome : Settled A
}.
Arguments settledAt {A} p.
Arguments outcome {A} p.

(** ** The page state of [TryFitPage] (page.tsx) *)

Module Client.

(** [AnalyzeClothingImageOutput] *)
Record AnalyzeClothingImageOutput : Type := {
  garmentType : string;
  clothingFeatures : list string;
  suggestedGender : string
}.

Record ModelFormValues : Type := {
  gender : string;
  pose : string;
  bodyType : string;
  skinTone : string;
  viewAngle : string
}.

Record LoadingStates : Type := {
  analyzing : bool;
  generatingModel : bool;
  compositing : bool
}.

(** The [useState] cells and the form; [None] is [null]. *)
Record PageState : Type := {
  clothingImage : option string;
  clothingAnalysis : option AnalyzeClothingImageOutput;
  modelImage : option string;
  compositeImage : option string;
  loadingStates : LoadingStates;
  modelForm : ModelFormValues
}.

(** The initial values given to [useState] and [useForm]. *)
Definition initialPage : PageState :=
  {| clothingImage := None;
     clothingAnalysis := None;
     modelImage := None;
     compositeImage := None;
     loadingStates := {| analyzing := false; generatingModel := false;
                         compositing := false |};
     modelForm := {| gender := "female";
                     pose := "standing confidently, hands on hips";
                     bodyType := "athletic build";
                     skinTone := "light brown skin";
                     viewAngle := "front" |} |}.

End Client.

(** ** Observable effects *)

Record ToastProps : Type := {
  variant : string;
  title : string;
  description : string
}.

Inductive Event : Type :=
| EvGenerate (opts : GenerateOptions)  (* [await ai.generate(opts)] *)
| EvPrompt (name : string) (input : list (string * string))
                                       (* an executable prompt is started *)
| EvSleep (ms : nat)                   (* [await new Promise(r => setTimeout(r, ms))] *)
| EvToast (props : ToastProps).        (* [toast(props)] *)

Record World : Type := {
  calls : nat;                         (* upstream invocations so far *)
  trace : list Event;                  (* oldest first *)
  page : Client.PageState
}.

Definition world0 : World :=
  {| calls := 0; trace := []; page := Client.initialPage |}.

(** ** The monad of asynchronous code *)

Inductive Completion (A : Type) : Type :=
| Normal (a : A)
| Throws (e : Js.Thrown).
Arguments Normal {A} a.
Arguments Throws {A} e.

Definition M (A : Type) : Type := World -> Completion A * World.

Definition ret {A} (a : A) : M A := fun w => (Normal a, w).

Definition throw {A} (e : Js.Thrown) : M A := fun w => (Throws e, w).

Definition bind {A B} (m : M A) (k : A -> M B) : M B :=
  fun w =>
    match m w with
    | (Normal a, w') => k a w'
    | (Throws e, w') => (Throws e, w')
    end.

(** [try { m } catch (error) { handler }] *)
Definition try_catch {A} (m : M A) (handler : Js.Thrown -> M A) : M A :=
  fun w =>
    match m w with
    | (Normal a, w') => (Normal a, w')
    | (Throws e, w') => handler e w'
    end.

(** Record an effect in the trace. *)
Definition emit (ev : Event) : M unit :=
  fun w => (Normal tt, {| calls := calls w; trace := trace w ++ [ev];
                          page := page w |}).

(** [try { m } finally { cleanup }] *)
Definition try_finally {A} (m : M A) (cleanup : M unit) : M A :=
  fun w =>
    match m w with
    | (c, w') =>
        match cleanup w' with
        | (Normal _, w'') => (c, w'')
        | (Throws e, w'') => (Throws e, w'')
        end
    end.

Declare Scope async_scope.
Delimit Scope async_scope with async.
Notation "x <- m ;; k" := (bind m (fun x => k))
  (at level 61, m at next level, right associativity) : async_scope.
Notation "m ;; k" := (bind m (fun _ => k))
  (at level 61, right associativity) : async_scope.
Open Scope async_scope.

Definition sleep (ms : nat) : M unit := emit (EvSleep ms).

Definition toast (props : ToastProps) : M unit := emit (EvToast props).

(** Control flow out of one iteration of a loop body: [continue] with the
    loop-carried variables, or [return]. *)
Inductive Step (S A : Type) : Type :=
| Continue (s : S)
| Return (a : A).
Arguments Continue {S A} s.
Arguments Return {S A} a.

(** [for (let i = lo; i <= hi; i++) { body } after], with [n] the number of
    iterations still allowed by the loop condition. *)
Fixpoint for_loop {S A} (n i : nat) (body : nat -> S -> M (Step S A))
         (after : S -> M A) (s : S) : M A :=
  match n with
  | 0 => after s
  | S n' =>
      st <- body i s ;;
      match st with
      | Continue s' => for_loop n' (i + 1) body after s'
      | Return a => ret a
      end
  end.

Definition for_from_to {S A} (lo hi : nat) (body : nat -> S -> M (Step S A))
           (after : S -> M A) (s : S) : M A :=
  for_loop (hi + 1 - lo) lo body after s.

(** [await ai.generate(opts)]: one more upstream invocation, which either
    resolves to a response or rejects. *)
Definition ai_generate (upstream : Upstream) (opts : GenerateOptions)
  : M GenerateResponse :=
  fun w =>
    let n := S (calls w) in
    let w' := {| calls := n; trace := trace w ++ [EvGenerate opts];
                 page := page w |} in
    match upstream n opts with
    | Fulfilled response => (Normal response, w')
    | Rejected reason => (Throws reason, w')
    end.

(** ** Genkit: schemas and flows *)

Module Genkit.

(** [z.string()] accepts every string, the empty one included. *)
Definition z_string (s : string) : bool := true.

(** [z.enum(options)] *)
Definition z_enum (options : list string) (s : string) : bool :=
  existsb (String.eqb s) options.

(** The error a flow raises when a value does not parse against its
    schema. *)
Definition schemaError : Js.Thrown :=
  Js.ErrorObj "INVALID_ARGUMENT: Schema validation failed.".

(** [ai.defineFlow({inputSchema, outputSchema}, fn)]: the input is parsed
    before [fn] runs and the output after it returns. *)
Definition defineFlow {I O} (inputSchema : I -> bool) (outputSchema : O -> bool)
           (fn : I -> M O) (input : I) : M O :=
  if inputSchema input then
    output <- fn input ;;
    if outputSchema output then ret output else throw schemaError
  else throw schemaError.

End Genkit.

Definition nl : string := String (ascii_of_nat 10) EmptyString.

(** ** single-view-composite.ts *)

Module SingleViewComposite.

Record SingleViewCompositeInput : Type := {
  clothingImageUri : string;
  modelImageUri : string;
  clothingDescription : string;
  modelDescription : string;
  viewAngle : string
}.

Record SingleViewCompositeOutput : Type := { compositeImage : string }.

Definition SingleViewCompositeInputSchema (input : SingleViewCompositeInput) : bool :=
  Genkit.z_string (clothingImageUri input)
  && Genkit.z_string (modelImageUri input)
  && Genkit.z_string (clothingDescription input)
  && Genkit.z_string (modelDescription input)
  && Genkit.z_enum ["front"; "side"; "back"] (viewAngle input).

Definition SingleViewCompositeOutputSchema (output : SingleViewCompositeOutput) : bool :=
  Genkit.z_string (compositeImage output).

(** The object literal [viewAngleInstructions], as its own properties. *)
Definition viewAngleInstructions : list (string * string) :=
  [ ("front", "Show the model from the front angle, facing forward");
    ("side", "Show the model from a side profile angle (90 degrees), showing the side silhouette");
    ("back", "Show the model from behind (180 degrees), showing the back of the outfit") ].

Definition maxRetries : nat := 3.

(** The text part of the prompt. *)
Definition promptText (input : SingleViewCompositeInput) (instruction : option string)
  : string :=
  "Composite the clothing item from the first image onto the AI model in the second image from a "
  ++ viewAngle input ++ " view perspective. " ++ Js.interpolate instruction ++ "." ++ nl
  ++ nl
  ++ "Requirements:" ++ nl
  ++ "- Ensure the clothing fits naturally on the model from the specified angle" ++ nl
  ++ "- Maintain realistic lighting and shadows  " ++ nl
  ++ "- Preserve the clothing's original colors and textures" ++ nl
  ++ "- Create a professional fashion photography look" ++ nl
  ++ "- Show how the garment drapes and fits from this specific perspective" ++ nl
  ++ nl
  ++ "Model: " ++ modelDescription input ++ nl
  ++ "Clothing: " ++ clothingDescription input ++ nl
  ++ nl
  ++ "Generate a high-quality " ++ viewAngle input ++ " view composite.".

(** The argument of [ai.generate]. *)
Definition generateOptions (input : SingleViewCompositeInput) : GenerateOptions :=
  let instruction := Js.get viewAngleInstructions (viewAngle input) in
  {| model := "googleai/gemini-2.0-flash-preview-image-generation";
     prompt := PromptParts [ MediaPart (clothingImageUri input);
                             MediaPart (modelImageUri input);
                             TextPart (promptText input instruction) ];
     responseModalities := ["TEXT"; "IMAGE"] |}.

Section Flow.

Variable upstream : Upstream.

(** One iteration of the retry loop; [lastError] is the loop-carried
    variable. *)
Definition iteration (input : SingleViewCompositeInput) (attempt : nat)
           (lastError : Js.Thrown) : M (Step Js.Thrown SingleViewCompositeOutput) :=
  try_catch
    (response <- ai_generate upstream (generateOptions input) ;;
     ret (Return {| compositeImage :=
                      Js.or_else (option_map url (media response)) "" |}))
    (fun error =>
       (* lastError = error *)
       if Js.is503 error && (attempt <? maxRetries)%nat then
         sleep 3000 ;;
         ret (Continue error)
       else
         throw error).

Definition retryLoop (input : SingleViewCompositeInput)
  : M SingleViewCompositeOutput :=
  for_from_to 1 maxRetries (iteration input)
              (fun lastError => throw lastError) Js.Undefined.

Definition singleViewCompositeFlow : SingleViewCompositeInput -> M SingleViewCompositeOutput :=
  Genkit.defineFlow SingleViewCompositeInputSchema SingleViewCompositeOutputSchema
    (fun input =>
       try_catch (retryLoop input) (fun error => throw error)).

Definition generateSingleViewComposite (input : SingleViewCompositeInput)
  : M SingleViewCompositeOutput :=
  singleViewCompositeFlow input.

End Flow.

End SingleViewComposite.

(** ** generate-ai-model.ts *)

Module GenerateAiModel.

Record GenerateAiModelInput : Type := { description : string }.

Record GenerateAiModelOutput : Type := { modelImage : string }.

Definition GenerateAiModelInputSchema (input : GenerateAiModelInput) : bool :=
  Genkit.z_string (description input).

Definition GenerateAiModelOutputSchema (output : GenerateAiModelOutput) : bool :=
  Genkit.z_string (modelImage output).

Definition maxRetries : nat := 3.

Definition generateOptions (input : GenerateAiModelInput) : GenerateOptions :=
  {| prompt := PromptString (description input);
     model := "googleai/gemini-2.0-flash-preview-image-generation";
     responseModalities := ["TEXT"; "IMAGE"] |}.

Section Flow.

Variable upstream : Upstream.

(** One iteration of the retry loop.  [media!.url] is evaluated inside
    the [try] block: on a [null] media it raises a [TypeError], which
    the [catch] clause of the same iteration receives. *)
Definition iteration (input : GenerateAiModelInput) (attempt : nat)
           (lastError : Js.Thrown) : M (Step Js.Thrown GenerateAiModelOutput) :=
  try_catch
    (response <- ai_generate upstream (generateOptions input) ;;
     match media response with
     | Some m => ret (Return {| modelImage := url m |})
     | None => throw Js.nullDeref
     end)
    (fun error =>
       (* lastError = error *)
       if Js.is503 error && (attempt <? maxRetries)%nat then
         sleep 3000 ;;
         ret (Continue error)
       else
         throw error).

Definition retryLoop (input : GenerateAiModelInput) : M GenerateAiModelOutput :=
  for_from_to 1 maxRetries (iteration input)
              (fun lastError => throw lastError) Js.Undefined.

Definition generateAiModelFlow : GenerateAiModelInput -> M GenerateAiModelOutput :=
  Genkit.defineFlow GenerateAiModelInputSchema GenerateAiModelOutputSchema retryLoop.

Definition generateAiModel (input : GenerateAiModelInput) : M GenerateAiModelOutput :=
  generateAiModelFlow input.

End Flow.

End GenerateAiModel.

(** ** multi-angle-composite.ts *)

Module MultiAngleComposite.

Record MultiAngleCompositeInput : Type := {
  clothingImageUri : string;
  modelImageUri : string;
  clothingDescription : string;
  modelDescription : string
}.

Record MultiAngleCompositeOutput : Type := {
  frontView : string;
  sideView : string;
  backView : string
}.

Definition MultiAngleCompositeInputSchema (input : MultiAngleCompositeInput) : bool :=
  Genkit.z_string (clothingImageUri input)
  && Genkit.z_string (modelImageUri input)
  && Genkit.z_string (clothingDescription input)
  && Genkit.z_string (modelDescription input).

Definition MultiAngleCompositeOutputSchema (output : MultiAngleCompositeOutput) : bool :=
  Genkit.z_string (frontView output)
  && Genkit.z_string (sideView output)
  && Genkit.z_string (backView output).

(** What an executable prompt resolves to: [output] is [null] or an
    object, given by its own properties. *)
Record PromptResponse : Type := { output : option (list (string * string)) }.

(** How the provider answers the prompt of a given name. *)
Definition PromptUpstream : Type :=
  string -> MultiAngleCompositeInput -> Promise PromptResponse.

Definition inputObject (input : MultiAngleCompositeInput) : list (string * string) :=
  [ ("clothingImageUri", clothingImageUri input);
    ("modelImageUri", modelImageUri input);
    ("clothingDescription", clothingDescription input);
    ("modelDescription", modelDescription input) ].

(** The rejection [Promise.all] sees first: the earliest to settle, and
    the leftmost of those that settle together. *)
Fixpoint firstRejection {A} (ps : list (Promise A)) : option (nat * Js.Thrown) :=
  match ps with
  | [] => None
  | p :: rest =>
      match outcome p, firstRejection rest with
      | Fulfilled _, r => r
      | Rejected e, None => Some (settledAt p, e)
      | Rejected e, Some (t, e') =>
          if (settledAt p <=? t)%nat then Some (settledAt p, e) else Some (t, e')
      end
  end.

Fixpoint fulfilledValues {A} (ps : list (Promise A)) : list A :=
  match ps with
  | [] => []
  | p :: rest =>
      match outcome p with
      | Fulfilled v => v :: fulfilledValues rest
      | Rejected _ => fulfilledValues rest
      end
  end.

(** [await Promise.all(ps)] *)
Definition Promise_all {A} (ps : list (Promise A)) : M (list A) :=
  match firstRejection ps with
  | Some (_, reason) => throw reason
  | None => ret (fulfilledValues ps)
  end.

(** [r.output?.key] *)
Definition outputField (r : PromptResponse) (key : string) : option string :=
  match output r with
  | None => None
  | Some obj => Js.get obj key
  end.

Section Flow.

Variable prompts : PromptUpstream.

(** Calling an executable prompt starts the request and hands back the
    promise; nothing is awaited here. *)
Definition callPrompt (name : string) (input : MultiAngleCompositeInput)
  : M (Promise PromptResponse) :=
  fun w =>
    (Normal (prompts name input),
     {| calls := S (calls w);
        trace := trace w ++ [EvPrompt name (inputObject input)];
        page := page w |}).

Definition frontViewPrompt := callPrompt "frontViewCompositePrompt".
Definition sideViewPrompt := callPrompt "sideViewCompositePrompt".
Definition backViewPrompt := callPrompt "backViewCompositePrompt".

Definition multiAngleCompositeFlow
  : MultiAngleCompositeInput -> M MultiAngleCompositeOutput :=
  Genkit.defineFlow MultiAngleCompositeInputSchema MultiAngleCompositeOutputSchema
    (fun input =>
       front <- frontViewPrompt input ;;
       side <- sideViewPrompt input ;;
       back <- backViewPrompt input ;;
       results <- Promise_all [front; side; back] ;;
       match results with
       | [frontResult; sideResult; backResult] =>
           ret {| frontView := Js.or_else (outputField frontResult "frontView") "";
                  sideView := Js.or_else (outputField sideResult "sideView") "";
                  backView := Js.or_else (outputField backResult "backView") "" |}
       | _ =>
           (* an element missing from the destructured array is
              [undefined], and reading [.output] of it raises *)
           throw (Js.ErrorObj "Cannot read properties of undefined (reading 'output')")
       end).

Definition generateMultiAngleComposite (input : MultiAngleCompositeInput)
  : M MultiAngleCompositeOutput :=
  multiAngleCompositeFlow input.

End Flow.

End MultiAngleComposite.

(** ** page.tsx: the try-on handler *)

Module Page.

Import Client.

Definition getPage : M PageState := fun w => (Normal (page w), w).

Definition setPage (f : PageState -> PageState) : M unit :=
  fun w => (Normal tt, {| calls := calls w; trace := trace w; page := f (page w) |}).

Definition setCompositeImage (v : option string) : M unit :=
  setPage (fun p =>
    {| clothingImage := clothingImage p;
       clothingAnalysis := clothingAnalysis p;
       modelImage := modelImage p;
       compositeImage := v;
       loadingStates := loadingStates p;
       modelForm := modelForm p |}).

Definition setLoadingStates (f : LoadingStates -> LoadingStates) : M unit :=
  setPage (fun p =>
    {| clothingImage := clothingImage p;
       clothingAnalysis := clothingAnalysis p;
       modelImage := modelImage p;
       compositeImage := compositeImage p;
       loadingStates := f (loadingStates p);
       modelForm := modelForm p |}).

(** [prev => ({ ...prev, compositing: b })] *)
Definition withCompositing (b : bool) (prev : LoadingStates) : LoadingStates :=
  {| analyzing := analyzing prev;
     generatingModel := generatingModel prev;
     compositing := b |}.

(** Truthiness of [object | null]. *)
Definition truthyObject {A} (v : option A) : bool :=
  match v with
  | Some _ => true
  | None => false
  end.

Section Handlers.

Variable upstream : Upstream.

Definition handleCreateTryOn : M unit :=
  p <- getPage ;;
  match negb (Js.truthy (clothingImage p))
        || negb (Js.truthy (modelImage p))
        || negb (truthyObject (clothingAnalysis p)),
        clothingImage p, modelImage p, clothingAnalysis p with
  | false, Some clothingImage, Some modelImage, Some clothingAnalysis =>
      setLoadingStates (withCompositing true) ;;
      setCompositeImage None ;;
      try_finally
        (try_catch
           (let modelValues := modelForm p in
            let modelDescription :=
              "A " ++ gender modelValues ++ " model with " ++ skinTone modelValues
              ++ " and an " ++ bodyType modelValues ++ ". The model is "
              ++ pose modelValues ++ "." in
            let clothingDescription :=
              garmentType clothingAnalysis ++ " with features: "
              ++ Js.join ", " (clothingFeatures clothingAnalysis) in
            result <- SingleViewComposite.generateSingleViewComposite upstream
                        {| SingleViewComposite.clothingImageUri := clothingImage;
                           SingleViewComposite.modelImageUri := modelImage;
                           SingleViewComposite.clothingDescription := clothingDescription;
                           SingleViewComposite.modelDescription := modelDescription;
                           SingleViewComposite.viewAngle := viewAngle modelValues |} ;;
            if Js.truthy (Some (SingleViewComposite.compositeImage result)) then
              setCompositeImage (Some (SingleViewComposite.compositeImage result))
            else
              throw (Js.ErrorObj "No composite image generated"))
           (fun error =>
              toast {| variant := "destructive";
                       title := "Virtual Try-On Failed";
                       description := "Could not create the composite image. Please try again." |}))
        (setLoadingStates (withCompositing false))
  | _, _, _, _ =>
      toast {| variant := "destructive";
               title := "Missing Images";
               description := "Please upload a clothing item and generate a model first." |}
  end.

End Handlers.

End Page.

(** ** page.tsx: the other handlers, the derived flags and the download *)

Module TryFitPage.

Import Client.

Definition setClothingImage (v : option string) : M unit :=
  Page.setPage (fun p =>
    {| clothingImage := v;
       clothingAnalysis := clothingAnalysis p;
       modelImage := modelImage p;
       compositeImage := compositeImage p;
       loadingStates := loadingStates p;
       modelForm := modelForm p |}).

Definition setClothingAnalysis (v : option AnalyzeClothingImageOutput) : M unit :=
  Page.setPage (fun p =>
    {| clothingImage := clothingImage p;
       clothingAnalysis := v;
       modelImage := modelImage p;
       compositeImage := compositeImage p;
       loadingStates := loadingStates p;
       modelForm := modelForm p |}).

Definition setModelImage (v : option string) : M unit :=
  Page.setPage (fun p =>
    {| clothingImage := clothingImage p;
       clothingAnalysis := clothingAnalysis p;
       modelImage := v;
       compositeImage := compositeImage p;
       loadingStates := loadingStates p;
       modelForm := modelForm p |}).

(** The form as a whole is replaced when the user picks a value in one of
    its selects ([field.onChange]). *)
Definition setModelForm (values : ModelFormValues) : M unit :=
  Page.setPage (fun p =>
    {| clothingImage := clothingImage p;
       clothingAnalysis := clothingAnalysis p;
       modelImage := modelImage p;
       compositeImage := compositeImage p;
       loadingStates := loadingStates p;
       modelForm := values |}).

(** [modelForm.setValue("gender", value)] *)
Definition setGender (value : string) : M unit :=
  Page.setPage (fun p =>
    {| clothingImage := clothingImage p;
       clothingAnalysis := clothingAnalysis p;
       modelImage := modelImage p;
       compositeImage := compositeImage p;
       loadingStates := loadingStates p;
       modelForm := {| gender := value;
                       pose := pose (modelForm p);
                       bodyType := bodyType (modelForm p);
                       skinTone := skinTone (modelForm p);
                       viewAngle := viewAngle (modelForm p) |} |}).

(** [prev => ({ ...prev, analyzing: b })] *)
Definition withAnalyzing (b : bool) (prev : LoadingStates) : LoadingStates :=
  {| analyzing := b;
     generatingModel := generatingModel prev;
     compositing := compositing prev |}.

(** [prev => ({ ...prev, generatingModel: b })] *)
Definition withGeneratingModel (b : bool) (prev : LoadingStates) : LoadingStates :=
  {| analyzing := analyzing prev;
     generatingModel := b;
     compositing := compositing prev |}.

(** [await p] on a call that has settled. *)
Definition await {A} (p : Settled A) : M A :=
  match p with
  | Fulfilled value => ret value
  | Rejected reason => throw reason
  end.

(** *** The flags computed with [useMemo]; [isHydrated] is the state cell
    set by the effect that runs after the first render. *)

Definition isCreateTryOnDisabled (isHydrated : bool) (p : PageState) : bool :=
  if negb isHydrated then true
  else negb (Js.truthy (clothingImage p))
       || negb (Js.truthy (modelImage p))
       || compositing (loadingStates p).

Definition isDownloadDisabled (isHydrated : bool) (p : PageState) : bool :=
  if negb isHydrated then true
  else negb (Js.truthy (compositeImage p)).

Definition isFileInputDisabled (isHydrated : bool) (p : PageState) : bool :=
  if negb isHydrated then false
  else analyzing (loadingStates p).

Definition isGenerateModelDisabled (isHydrated : bool) (p : PageState) : bool :=
  if negb isHydrated then false
  else generatingModel (loadingStates p).

(** *** The progress indicator: the step shown before [/3], and the width
    of the bar. *)

Definition progressStep (p : PageState) : string :=
  if Page.truthyObject (clothingAnalysis p) && Js.truthy (modelImage p)
     && Js.truthy (compositeImage p) then "3"
  else if Page.truthyObject (clothingAnalysis p) && Js.truthy (modelImage p) then "2"
  else if Page.truthyObject (clothingAnalysis p) then "1"
  else "0".

Definition progressWidth (p : PageState) : string :=
  (if Page.truthyObject (clothingAnalysis p) && Js.truthy (modelImage p)
      && Js.truthy (compositeImage p) then "100"
   else if Page.truthyObject (clothingAnalysis p) && Js.truthy (modelImage p) then "66.67"
   else if Page.truthyObject (clothingAnalysis p) then "33.33"
   else "0") ++ "%".

(** *** [downloadImage]: the anchor element that is created and clicked,
    if any. *)

Record Anchor : Type := {
  href : string;
  download : string
}.

Definition downloadImage (p : PageState) : option Anchor :=
  match compositeImage p with
  | Some image =>
      if negb (Js.truthy (Some image)) then None
      else
        let modelValues := modelForm p in
        Some {| href := image;
                download := "tryfit-" ++ viewAngle modelValues ++ "-view.png" |}
  | None => None
  end.

Section Handlers.

Variable upstream : Upstream.

(** The two collaborators of [handleFileChange], which live outside the
    files at hand: [toBase64] of [@/lib/image-utils] and the server action
    [analyzeClothingImage]; each is given as what its call settles to. *)
Variable File : Type.
Variable toBase64 : File -> Settled string.
Variable analyzeClothingImage : string -> Settled AnalyzeClothingImageOutput.

(** [event.target.files?.[0]] *)
Definition firstFile (files : option (list File)) : option File :=
  match files with
  | Some (file :: _) => Some file
  | _ => None
  end.

Definition handleFileChange (files : option (list File)) : M unit :=
  match firstFile files with
  | None => ret tt
  | Some file =>
      Page.setLoadingStates (withAnalyzing true) ;;
      setClothingAnalysis None ;;
      Page.setCompositeImage None ;;
      try_finally
        (try_catch
           (dataUri <- await (toBase64 file) ;;
            setClothingImage (Some dataUri) ;;
            analysisResult <- await (analyzeClothingImage dataUri) ;;
            setClothingAnalysis (Some analysisResult) ;;
            (* Auto-set gender based on clothing analysis *)
            if String.eqb (suggestedGender analysisResult) "male"
               || String.eqb (suggestedGender analysisResult) "female" then
              setGender (suggestedGender analysisResult)
            else
              ret tt)
           (fun error =>
              toast {| variant := "destructive";
                       title := "Analysis Failed";
                       description :=
                         "Could not analyze the uploaded image. Please try another one." |} ;;
              setClothingImage None))
        (Page.setLoadingStates (withAnalyzing false))
  end.

Definition handleGenerateModel (values : ModelFormValues) : M unit :=
  Page.setLoadingStates (withGeneratingModel true) ;;
  setModelImage None ;;
  Page.setCompositeImage None ;;
  try_finally
    (try_catch
       (let description :=
          "A full-body studio portrait of a " ++ gender values ++ " model with "
          ++ skinTone values ++ " and an " ++ bodyType values ++ ". The model is "
          ++ pose values ++ ". The background is plain white." in
        result <- GenerateAiModel.generateAiModel upstream
                    {| GenerateAiModel.description := description |} ;;
        setModelImage (Some (GenerateAiModel.modelImage result)))
       (fun error =>
          toast {| variant := "destructive";
                   title := "Model Generation Failed";
                   description := "Could not generate the AI model. Please try again." |}))
    (Page.setLoadingStates (withGeneratingModel false)).

End Handlers.

(** *** What the user can do on the page, one thing after the other *)

Inductive Action : Type :=
| FileChange (File : Type) (toBase64 : File -> Settled string)
             (analyzeClothingImage : string -> Settled AnalyzeClothingImageOutput)
             (files : option (list File))
| FormChange (values : ModelFormValues)
| SubmitModelForm (upstream : Upstream) (values : ModelFormValues)
| CreateTryOn (upstream : Upstream).

Definition perform (a : Action) : M unit :=
  match a with
  | FileChange File toBase64 analyzeClothingImage files =>
      handleFileChange File toBase64 analyzeClothingImage files
  | FormChange values => setModelForm values
  | SubmitModelForm upstream values => handleGenerateModel upstream values
  | CreateTryOn upstream => Page.handleCreateTryOn upstream
  end.

Fixpoint performAll (actions : list Action) : M unit :=
  match actions with
  | [] => ret tt
  | a :: rest => perform a ;; performAll rest
  end.

End TryFitPage.

(** ** Vocabulary of the statements *)

(** The world after [n] more upstream invocations and the events [evs]. *)
Definition advance (w : World) (n : nat) (evs : list Event) : World :=
  {| calls := calls w + n; trace := trace w ++ evs; page := page w |}.

(** The trace of [k] attempts on the same options: a 3-second wait between
    two consecutive attempts, none after the last one. *)
Fixpoint attemptsTrace (opts : GenerateOptions) (k : nat) : list Event :=
  match k with
  | 0 => []
  | 1 => [EvGenerate opts]
  | S k' => EvGenerate opts :: EvSleep 3000 :: attemptsTrace opts k'
  end.

(** [k] failed attempts, each followed by its wait. *)
Fixpoint failedAttempts (opts : GenerateOptions) (k : nat) : list Event :=
  match k with
  | 0 => []
  | S k' => EvGenerate opts :: EvSleep 3000 :: failedAttempts opts k'
  end.

(** An error that carries the overload signature. *)
Definition overloaded (r : Settled GenerateResponse) : Prop :=
  exists message,
    r = Rejected (Js.ErrorObj message) /\ Js.includes message "503" = true.

(** The [k + 1]-th attempt ends the retry loop: it succeeds, or fails with
    another error, or is the third attempt. *)
Definition decisive (k : nat) (r : Settled GenerateResponse) : Prop :=
  match r with
  | Fulfilled _ => True
  | Rejected e => Js.is503 e = false \/ S k = 3
  end.

(** ** Vocabulary for the page and for the bounds *)

(** The upstream attempts recorded in a trace. *)
Fixpoint generateCount (evs : list Event) : nat :=
  match evs with
  | [] => 0
  | EvGenerate _ :: rest => S (generateCount rest)
  | _ :: rest => generateCount rest
  end.

(** The time spent waiting in a trace, in milliseconds. *)
Fixpoint sleepTotal (evs : list Event) : nat :=
  match evs with
  | [] => 0
  | EvSleep ms :: rest => ms + sleepTotal rest
  | _ :: rest => sleepTotal rest
  end.

(** The notifications recorded in a trace. *)
Fixpoint toasts (evs : list Event) : list ToastProps :=
  match evs with
  | [] => []
  | EvToast props :: rest => props :: toasts rest
  | _ :: rest => toasts rest
  end.

Definition tryOnFailedToast : ToastProps :=
  {| variant := "destructive";
     title := "Virtual Try-On Failed";
     description := "Could not create the composite image. Please try again." |}.

Definition modelFailedToast : ToastProps :=
  {| variant := "destructive";
     title := "Model Generation Failed";
     description := "Could not generate the AI model. Please try again." |}.

Definition analysisFailedToast : ToastProps :=
  {| variant := "destructive";
     title := "Analysis Failed";
     description := "Could not analyze the uploaded image. Please try another one." |}.

(** The guard of [handleCreateTryOn] lets the page through. *)
Definition passesGuard (p : Client.PageState) : bool :=
  Js.truthy (Client.clothingImage p)
  && Js.truthy (Client.modelImage p)
  && Page.truthyObject (Client.clothingAnalysis p).

(** The page between two user actions that have run to their end: no
    loading flag is up, a clothing image is shown only with its analysis,
    and a composite image is never empty and is shown only with the
    clothing image, the model image and the analysis. *)
Definition settled (p : Client.PageState) : Prop :=
  Client.loadingStates p
  = {| Client.analyzing := false; Client.generatingModel := false;
       Client.compositing := false |}
  /\ (Client.clothingAnalysis p = None -> Client.clothingImage p = None)
  /\ (forall image,
        Client.compositeImage p = Some image ->
        image <> "" /\ passesGuard p = true).

(** The input that [handleCreateTryOn] builds from the page. *)
Definition tryOnInput (p : Client.PageState) (clothingImage modelImage : string)
           (clothingAnalysis : Client.AnalyzeClothingImageOutput)
  : SingleViewComposite.SingleViewCompositeInput :=
  {| SingleViewComposite.clothingImageUri := clothingImage;
     SingleViewComposite.modelImageUri := modelImage;
     SingleViewComposite.clothingDescription :=
       Client.garmentType clothingAnalysis ++ " with features: "
       ++ Js.join ", " (Client.clothingFeatures clothingAnalysis);
     SingleViewComposite.modelDescription :=
       "A " ++ Client.gender (Client.modelForm p) ++ " model with "
       ++ Client.skinTone (Client.modelForm p) ++ " and an "
       ++ Client.bodyType (Client.modelForm p) ++ ". The model is "
       ++ Client.pose (Client.modelForm p) ++ ".";
     SingleViewComposite.viewAngle := Client.viewAngle (Client.modelForm p) |}.

(** The description that [handleGenerateModel] builds from the form
    values. *)
Definition modelDescriptionOf (values : Client.ModelFormValues) : string :=
  "A full-body studio portrait of a " ++ Client.gender values ++ " model with "
  ++ Client.skinTone values ++ " and an " ++ Client.bodyType values
  ++ ". The model is " ++ Client.pose values ++ ". The background is plain white.".

(** A page with some of its cells replaced. *)
Definition withCells (p : Client.PageState)
           (clothing : option string)
           (analysis : option Client.AnalyzeClothingImageOutput)
           (model composite : option string)
           (loading : Client.LoadingStates) : Client.PageState :=
  {| Client.clothingImage := clothing;
     Client.clothingAnalysis := analysis;
     Client.modelImage := model;
     Client.compositeImage := composite;
     Client.loadingStates := loading;
     Client.modelForm := Client.modelForm p |}.

(** The same world with another page. *)
Definition onPage (w : World) (p : Client.PageState) : World :=
  {| calls := calls w; trace := trace w; page := p |}.

(** ** Scripted upstreams and inputs, for concrete runs *)

Module Sample.

Definition image : string := "data:image/png;base64,iVBORw0KGgo=".

Definition input : SingleViewComposite.SingleViewCompositeInput :=
  {| SingleViewComposite.clothingImageUri := "data:image/png;base64,AAAA";
     SingleViewComposite.modelImageUri := "data:image/png;base64,BBBB";
     SingleViewComposite.clothingDescription := "T-shirt with features: red, cotton";
     SingleViewComposite.modelDescription :=
       "A female model with light brown skin and an athletic build. The model is walking forward, smiling.";
     SingleViewComposite.viewAngle := "front" |}.

(** The same request with no clothing image. *)
Definition inputWithoutClothing : SingleViewComposite.SingleViewCompositeInput :=
  {| SingleViewComposite.clothingImageUri := "";
     SingleViewComposite.modelImageUri := "data:image/png;base64,BBBB";
     SingleViewComposite.clothingDescription := "T-shirt with features: red, cotton";
     SingleViewComposite.modelDescription :=
       "A female model with light brown skin and an athletic build. The model is walking forward, smiling.";
     SingleViewComposite.viewAngle := "front" |}.

Definition modelInput : GenerateAiModel.GenerateAiModelInput :=
  {| GenerateAiModel.description :=
       "A full-body studio portrait of a female model with light brown skin and an athletic build. The model is walking forward, smiling. The background is plain white." |}.

Definition overloadError : Js.Thrown :=
  Js.ErrorObj "[GoogleGenerativeAI Error]: [503 Service Unavailable] The model is overloaded.".

Definition quotaError : Js.Thrown :=
  Js.ErrorObj "[GoogleGenerativeAI Error]: [429 Too Many Requests] Quota exceeded.".

Definition withImage : GenerateResponse := {| media := Some {| url := image |} |}.

Definition withoutImage : GenerateResponse := {| media := None |}.

Definition alwaysOverloaded : Upstream := fun _ _ => Rejected overloadError.

Definition alwaysQuota : Upstream := fun _ _ => Rejected quotaError.

Definition overloadedOnce : Upstream :=
  fun n _ =>
    match n with
    | 1 => Rejected overloadError
    | _ => Fulfilled withImage
    end.

Definition alwaysImage : Upstream := fun _ _ => Fulfilled withImage.

Definition neverImage : Upstream := fun _ _ => Fulfilled withoutImage.

(** A page on which the model has been generated but no clothing
    uploaded. *)
Definition pageWithoutClothing : Client.PageState :=
  {| Client.clothingImage := None;
     Client.clothingAnalysis := None;
     Client.modelImage := Some "data:image/png;base64,BBBB";
     Client.compositeImage := None;
     Client.loadingStates := Client.loadingStates Client.initialPage;
     Client.modelForm := Client.modelForm Client.initialPage |}.

(** A page ready for the try-on. *)
Definition pageReady : Client.PageState :=
  {| Client.clothingImage := Some "data:image/png;base64,AAAA";
     Client.clothingAnalysis :=
       Some {| Client.garmentType := "T-shirt";
               Client.clothingFeatures := ["red"; "cotton"];
               Client.suggestedGender := "female" |};
     Client.modelImage := Some "data:image/png;base64,BBBB";
     Client.compositeImage := None;
     Client.loadingStates := Client.loadingStates Client.initialPage;
     Client.modelForm := Client.modelForm Client.initialPage |}.

Definition worldOn (p : Client.PageState) : World :=
  {| calls := 0; trace := []; page := p |}.

Definition multiInput : MultiAngleComposite.MultiAngleCompositeInput :=
  {| MultiAngleComposite.clothingImageUri := "data:image/png;base64,AAAA";
     MultiAngleComposite.modelImageUri := "data:image/png;base64,BBBB";
     MultiAngleComposite.clothingDescription := "T-shirt with features: red, cotton";
     MultiAngleComposite.modelDescription := "A female model with light brown skin." |}.

(** The front prompt rejects late, the back prompt rejects early, the side
    prompt is fulfilled in between. *)
Definition racingPrompts : MultiAngleComposite.PromptUpstream :=
  fun name _ =>
    if String.eqb name "frontViewCompositePrompt" then
      {| settledAt := 9; outcome := Rejected quotaError |}
    else if String.eqb name "sideViewCompositePrompt" then
      {| settledAt := 5;
         outcome := Fulfilled {| MultiAngleComposite.output := Some [("sideView", image)] |} |}
    else
      {| settledAt := 2; outcome := Rejected overloadError |}.

(** All three prompts are fulfilled: the front one without output, the side
    one with an output that lacks its field, the back one with an image. *)
Definition sparsePrompts : MultiAngleComposite.PromptUpstream :=
  fun name _ =>
    if String.eqb name "frontViewCompositePrompt" then
      {| settledAt := 4; outcome := Fulfilled {| MultiAngleComposite.output := None |} |}
    else if String.eqb name "sideViewCompositePrompt" then
      {| settledAt := 1; outcome := Fulfilled {| MultiAngleComposite.output := Some [] |} |}
    else
      {| settledAt := 3;
         outcome := Fulfilled {| MultiAngleComposite.output := Some [("backView", image)] |} |}.

End Sample.

(** ** Further scenarios, for concrete runs *)

Module Scenario.

(** A request for a view angle that the flow does not know. *)
Definition diagonalInput : SingleViewComposite.SingleViewCompositeInput :=
  {| SingleViewComposite.clothingImageUri := "data:image/png;base64,AAAA";
     SingleViewComposite.modelImageUri := "data:image/png;base64,BBBB";
     SingleViewComposite.clothingDescription := "T-shirt with features: red, cotton";
     SingleViewComposite.modelDescription := "A female model with light brown skin.";
     SingleViewComposite.viewAngle := "diagonal" |}.

(** An error that is no overload, with 503 inside a larger number. *)
Definition sizeError : Js.Thrown :=
  Js.ErrorObj "Image of 1503 pixels is too small.".

Definition sizeErrorOnce : Upstream :=
  fun n _ =>
    match n with
    | 1 => Rejected sizeError
    | _ => Fulfilled Sample.withImage
    end.

(** A rejection with a string, not an [Error]. *)
Definition alwaysThrownString : Upstream :=
  fun _ _ => Rejected (Js.NonError "503 Service Unavailable").

(** A success whose media has an empty url. *)
Definition alwaysEmptyUrl : Upstream :=
  fun _ _ => Fulfilled {| media := Some {| url := "" |} |}.

(** [Sample.pageReady] with a view angle typed into the form that the flow
    does not know. *)
Definition pageWithDiagonalView : Client.PageState :=
  {| Client.clothingImage := Client.clothingImage Sample.pageReady;
     Client.clothingAnalysis := Client.clothingAnalysis Sample.pageReady;
     Client.modelImage := Client.modelImage Sample.pageReady;
     Client.compositeImage := None;
     Client.loadingStates := Client.loadingStates Sample.pageReady;
     Client.modelForm := {| Client.gender := "female";
                            Client.pose := "walking forward, smiling";
                            Client.bodyType := "slim build";
                            Client.skinTone := "olive skin";
                            Client.viewAngle := "diagonal" |} |}.

(** The analysis shown on [Sample.pageReady]. *)
Definition analysis : Client.AnalyzeClothingImageOutput :=
  {| Client.garmentType := "T-shirt";
     Client.clothingFeatures := ["red"; "cotton"];
     Client.suggestedGender := "female" |}.

(** Files are given by their names. *)
Definition unreadable : string -> Settled string :=
  fun _ => Rejected (Js.ErrorObj "The file could not be read.").

Definition readable : string -> Settled string :=
  fun name => Fulfilled ("data:image/png;base64," ++ name).

Definition suitAnalysis : Client.AnalyzeClothingImageOutput :=
  {| Client.garmentType := "Suit";
     Client.clothingFeatures := ["navy"; "wool"];
     Client.suggestedGender := "male" |}.

Definition analysedAsSuit : string -> Settled Client.AnalyzeClothingImageOutput :=
  fun _ => Fulfilled suitAnalysis.

(** Upload, pick the side view, generate the model, create the try-on. *)
Definition session : list TryFitPage.Action :=
  [ TryFitPage.FileChange string readable analysedAsSuit (Some ["suit.png"]);
    TryFitPage.FormChange {| Client.gender := "male";
                             Client.pose := "walking forward, smiling";
                             Client.bodyType := "slim build";
                             Client.skinTone := "olive skin";
                             Client.viewAngle := "side" |};
    TryFitPage.SubmitModelForm Sample.overloadedOnce
      {| Client.gender := "male";
         Client.pose := "walking forward, smiling";
         Client.bodyType := "slim build";
         Client.skinTone := "olive skin";
         Client.viewAngle := "side" |};
    TryFitPage.CreateTryOn Sample.alwaysImage ].

End Scenario.

(** The notification of the guard of [handleCreateTryOn]. *)
Definition missingImagesToast : ToastProps :=
  {| variant := "destructive";
     title := "Missing Images";
     description := "Please upload a clothing item and generate a model first." |}.

(** * Properties *)

(** ** Strings *)

Lemma prefix_spec (p s : string) :
  String.prefix p s = true <-> exists b, s = p ++ b.
Proof.
  revert s. induction p as [|c p IH]; intros s.
  - split; [intros _; now exists s | now destruct s].
  - destruct s as [|d s]; cbn.
    + split; [discriminate | intros [b Hb]; discriminate].
    + destruct (ascii_dec c d) as [<- | Hne].
      * rewrite IH. split; intros [b Hb]; exists b; [now subst | now injection Hb].
      * split; [discriminate | intros [b Hb]; cbn in Hb; congruence].
Qed.

(** [Js.includes] is the substring test of [String.prototype.includes]. *)
Lemma includes_spec (s sub : string) :
  Js.includes s sub = true <-> exists a b, s = a ++ sub ++ b.
Proof.
  induction s as [|c s IH]; cbn [Js.includes].
  - rewrite prefix_spec. split.
    + intros [b Hb]. now exists "", b.
    + intros ([|d a] & b & H); [now exists b | discriminate].
  - rewrite orb_true_iff, prefix_spec, IH. split.
    + intros [[b Hb] | (a & b & Hab)].
      * now exists "", b.
      * exists (String c a), b. cbn. now rewrite Hab.
    + intros ([|d a] & b & H).
      * left. now exists b.
      * right. injection H as _ H. now exists a, b.
Qed.

(** ** The monad and the world *)

Lemma advance_advance w n evs m evs' :
  advance (advance w n evs) m evs' = advance w (n + m) (evs ++ evs').
Proof.
  unfold advance; cbn. now rewrite Nat.add_assoc, app_assoc.
Qed.

Lemma ai_generate_fulfilled upstream opts w response :
  upstream (calls w + 1) opts = Fulfilled response ->
  ai_generate upstream opts w = (Normal response, advance w 1 [EvGenerate opts]).
Proof.
  intros H. unfold ai_generate, advance.
  rewrite <- (Nat.add_1_r (calls w)), H. reflexivity.
Qed.

Lemma ai_generate_rejected upstream opts w reason :
  upstream (calls w + 1) opts = Rejected reason ->
  ai_generate upstream opts w = (Throws reason, advance w 1 [EvGenerate opts]).
Proof.
  intros H. unfold ai_generate, advance.
  rewrite <- (Nat.add_1_r (calls w)), H. reflexivity.
Qed.

Lemma sleep_advance ms w : sleep ms w = (Normal tt, advance w 0 [EvSleep ms]).
Proof.
  unfold sleep, emit, advance. now rewrite Nat.add_0_r.
Qed.

Lemma overloaded_is503 r :
  overloaded r -> exists e, r = Rejected e /\ Js.is503 e = true.
Proof.
  intros (message & -> & H). now exists (Js.ErrorObj message).
Qed.

Lemma advance_0 w : advance w 0 [] = w.
Proof.
  destruct w as [c t p]. unfold advance; cbn.
  now rewrite Nat.add_0_r, app_nil_r.
Qed.

Lemma attemptsTrace_failedAttempts opts k :
  attemptsTrace opts (S k) = (failedAttempts opts k ++ [EvGenerate opts])%list.
Proof.
  induction k as [|k IH]; [reflexivity|].
  change (attemptsTrace opts (S (S k)))
    with (EvGenerate opts :: EvSleep 3000 :: attemptsTrace opts (S k)).
  now rewrite IH.
Qed.

(** Every way an upstream invocation can settle. *)
Lemma settled_cases (r : Settled GenerateResponse) :
  overloaded r
  \/ (exists response, r = Fulfilled response)
  \/ (exists e, r = Rejected e /\ Js.is503 e = false).
Proof.
  destruct r as [response | [ | message | repr]].
  - right; left. now exists response.
  - right; right. now exists Js.Undefined.
  - destruct (Js.includes message "503") eqn:E.
    + left. now exists message.
    + right; right. now exists (Js.ErrorObj message).
  - right; right. now exists (Js.NonError repr).
Qed.

Lemma overloaded_any_rejection r :
  overloaded r -> exists e, r = Rejected e.
Proof. intros (message & -> & _). now eexists. Qed.

(** A prefix of at most two invocations, given one by one. *)
Lemma prefix_1 (P : nat -> Prop) c :
  P (c + 1) -> forall j, 1 <= j <= 1 -> P (c + j).
Proof. intros H j Hj. now replace j with 1 by lia. Qed.

Lemma prefix_2 (P : nat -> Prop) c :
  P (c + 1) -> P (c + 2) -> forall j, 1 <= j <= 2 -> P (c + j).
Proof.
  intros H1 H2 j Hj. assert (j = 1 \/ j = 2) as [-> | ->] by lia; assumption.
Qed.

Lemma prefix_0 (P : nat -> Prop) c : forall j, 1 <= j <= 0 -> P (c + j).
Proof. intros j Hj. lia. Qed.

(** Whatever the upstream does, one of the first three attempts decides. *)
Lemma deciding_attempt (upstream : Upstream) (opts : GenerateOptions) (c : nat) :
  exists k,
    k < 3
    /\ (forall j, 1 <= j <= k -> overloaded (upstream (c + j) opts))
    /\ decisive k (upstream (c + S k) opts).
Proof.
  pose (P := fun n => overloaded (upstream n opts)).
  destruct (settled_cases (upstream (c + 1) opts)) as [O1 | [[r1 H1] | (e1 & H1 & N1)]].
  2: { exists 0. repeat split; [lia | apply (prefix_0 P) | now rewrite H1]. }
  2: { exists 0. repeat split; [lia | apply (prefix_0 P) | rewrite H1; now left]. }
  destruct (settled_cases (upstream (c + 2) opts)) as [O2 | [[r2 H2] | (e2 & H2 & N2)]].
  2: { exists 1. repeat split; [lia | now apply (prefix_1 P) | now rewrite H2]. }
  2: { exists 1. repeat split; [lia | now apply (prefix_1 P) | rewrite H2; now left]. }
  exists 2. repeat split; [lia | now apply (prefix_2 P) |].
  destruct (upstream (c + 3) opts); [exact I | now right].
Qed.

(** ** The [for] loop *)

Section ForLoop.

Context {S A : Type}.
Variable body : nat -> S -> M (Step S A).
Variable after : S -> M A.
Variable hi : nat.
Variable opts : GenerateOptions.

(** [retryable n]: the [n]-th upstream invocation makes an iteration that
    is not the last one go on to the next. *)
Variable retryable : nat -> Prop.

Hypothesis body_continues :
  forall i s w,
    i < hi -> retryable (calls w + 1) ->
    exists s', body i s w
               = (Normal (Continue s'), advance w 1 [EvGenerate opts; EvSleep 3000]).

(** After [k] retryable failures the loop is at iteration [i + k]. *)
Lemma for_loop_skips k :
  forall n i s w,
    k < n -> i + n = hi + 1 ->
    (forall j, 1 <= j <= k -> retryable (calls w + j)) ->
    exists s',
      for_loop n i body after s w
      = for_loop (n - k) (i + k) body after s' (advance w k (failedAttempts opts k)).
Proof.
  induction k as [|k IH]; intros n i s w Hk Hn Hre.
  - exists s. now rewrite Nat.sub_0_r, Nat.add_0_r, advance_0.
  - destruct n as [|n]; [lia|].
    destruct (body_continues i s w) as [s1 H1]; [lia | apply Hre; lia |].
    destruct (IH n (i + 1) s1 (advance w 1 [EvGenerate opts; EvSleep 3000]))
      as [s' H']; [lia | lia | |].
    + intros j Hj. cbn [calls advance].
      rewrite <- Nat.add_assoc. apply Hre. lia.
    + exists s'.
      change (for_loop (Datatypes.S n) i body after s w)
        with (bind (body i s)
                   (fun st => match st with
                              | Continue s' => for_loop n (i + 1) body after s'
                              | Return a => ret a
                              end) w).
      unfold bind. rewrite H1, H', advance_advance.
      replace (i + 1 + k) with (i + Datatypes.S k) by lia.
      reflexivity.
Qed.

(** The iteration that ends the loop, after [k] retryable failures. *)
Lemma for_loop_ends k n i s w (c : Completion A) w' :
  k < n -> i + n = hi + 1 ->
  (forall j, 1 <= j <= k -> retryable (calls w + j)) ->
  (forall s', body (i + k) s' (advance w k (failedAttempts opts k))
              = (match c with
                 | Normal a => Normal (Return a)
                 | Throws e => Throws e
                 end, w')) ->
  for_loop n i body after s w = (c, w').
Proof.
  intros Hk Hn Hre Hend.
  destruct (for_loop_skips k n i s w Hk Hn Hre) as [s' ->].
  destruct (n - k) as [|m] eqn:E; [lia|].
  cbn [for_loop]. unfold bind. rewrite Hend.
  now destruct c.
Qed.

End ForLoop.

(** ** One iteration of the retry loop of [singleViewCompositeFlow] *)

Module SingleViewFacts.

Import SingleViewComposite.

Section Iteration.

Variable upstream : Upstream.
Variable input : SingleViewCompositeInput.

Local Abbreviation opts := (generateOptions input).

Lemma sv_iteration_returns attempt lastError w response :
  upstream (calls w + 1) opts = Fulfilled response ->
  iteration upstream input attempt lastError w
  = (Normal (Return {| compositeImage :=
                         Js.or_else (option_map url (media response)) "" |}),
     advance w 1 [EvGenerate opts]).
Proof.
  intros H. unfold iteration, try_catch, bind.
  now rewrite (ai_generate_fulfilled _ _ _ _ H).
Qed.

Lemma sv_iteration_continues attempt lastError w e :
  upstream (calls w + 1) opts = Rejected e ->
  Js.is503 e = true ->
  attempt < maxRetries ->
  iteration upstream input attempt lastError w
  = (Normal (Continue e), advance w 1 [EvGenerate opts; EvSleep 3000]).
Proof.
  intros H H503 Hlt. unfold iteration, try_catch.
  unfold bind at 1. rewrite (ai_generate_rejected _ _ _ _ H).
  apply Nat.ltb_lt in Hlt. rewrite H503, Hlt. cbn [andb].
  unfold bind. rewrite sleep_advance, advance_advance. reflexivity.
Qed.

Lemma sv_iteration_throws attempt lastError w e :
  upstream (calls w + 1) opts = Rejected e ->
  Js.is503 e = false \/ maxRetries <= attempt ->
  iteration upstream input attempt lastError w
  = (Throws e, advance w 1 [EvGenerate opts]).
Proof.
  intros H Hstop. unfold iteration, try_catch.
  unfold bind at 1. rewrite (ai_generate_rejected _ _ _ _ H).
  assert (Js.is503 e && (attempt <? maxRetries)%nat = false) as ->.
  { destruct Hstop as [-> | Hle]; [reflexivity|].
    apply Nat.ltb_ge in Hle. rewrite Hle. apply andb_false_r. }
  reflexivity.
Qed.

Lemma sv_iteration_retryable attempt lastError w :
  attempt < maxRetries ->
  overloaded (upstream (calls w + 1) opts) ->
  exists e,
    iteration upstream input attempt lastError w
    = (Normal (Continue e), advance w 1 [EvGenerate opts; EvSleep 3000]).
Proof.
  intros Hlt Hov. apply overloaded_is503 in Hov as (e & He & H503).
  exists e. now apply sv_iteration_continues.
Qed.

(** The flow around the loop adds nothing for an input that parses:
    the outer [catch] rethrows and every output parses. *)
Lemma sv_flow_is_loop w :
  SingleViewCompositeInputSchema input = true ->
  generateSingleViewComposite upstream input w = retryLoop upstream input w.
Proof.
  intros Hin. unfold generateSingleViewComposite, singleViewCompositeFlow.
  unfold Genkit.defineFlow. rewrite Hin. unfold bind, try_catch, throw, ret.
  destruct (retryLoop upstream input w) as [[out|e] w']; reflexivity.
Qed.

(** The loop, when attempt [k + 1] resolves after [k] overload
    failures. *)
Lemma sv_loop_returns k w response after s :
  k < maxRetries ->
  (forall j, 1 <= j <= k -> overloaded (upstream (calls w + j) opts)) ->
  upstream (calls w + S k) opts = Fulfilled response ->
  for_from_to 1 maxRetries (iteration upstream input) after s w
  = (Normal {| compositeImage := Js.or_else (option_map url (media response)) "" |},
     advance w (S k) (attemptsTrace opts (S k))).
Proof.
  intros Hk Hpre Hok. unfold for_from_to.
  apply (for_loop_ends _ _ maxRetries opts
           (fun n => overloaded (upstream n opts))
           sv_iteration_retryable k);
    [unfold maxRetries in *; lia | reflexivity | exact Hpre |].
  intros s'. rewrite (sv_iteration_returns _ _ _ response).
  - rewrite advance_advance, attemptsTrace_failedAttempts, Nat.add_1_r.
    reflexivity.
  - cbn [calls advance]. now rewrite <- Nat.add_assoc, Nat.add_1_r.
Qed.

(** The loop, when attempt [k + 1] fails for good after [k] overload
    failures: the error is not an overload, or the attempts are used
    up. *)
Lemma sv_loop_throws k w e after s :
  k < maxRetries ->
  (forall j, 1 <= j <= k -> overloaded (upstream (calls w + j) opts)) ->
  upstream (calls w + S k) opts = Rejected e ->
  Js.is503 e = false \/ S k = maxRetries ->
  for_from_to 1 maxRetries (iteration upstream input) after s w
  = (Throws e, advance w (S k) (attemptsTrace opts (S k))).
Proof.
  intros Hk Hpre Hrej Hstop. unfold for_from_to.
  apply (for_loop_ends _ _ maxRetries opts
           (fun n => overloaded (upstream n opts))
           sv_iteration_retryable k);
    [unfold maxRetries in *; lia | reflexivity | exact Hpre |].
  intros s'. rewrite (sv_iteration_throws _ _ _ e).
  - rewrite advance_advance, attemptsTrace_failedAttempts, Nat.add_1_r.
    reflexivity.
  - cbn [calls advance]. now rewrite <- Nat.add_assoc, Nat.add_1_r.
  - destruct Hstop as [H|H]; [now left | right; rewrite <- H; cbn; lia].
Qed.


(** The loop, given the attempt that decides it. *)
Lemma sv_loop_decided k w after s :
  k < maxRetries ->
  (forall j, 1 <= j <= k -> overloaded (upstream (calls w + j) opts)) ->
  decisive k (upstream (calls w + S k) opts) ->
  for_from_to 1 maxRetries (iteration upstream input) after s w
  = (match upstream (calls w + S k) opts with
     | Fulfilled response =>
         Normal {| compositeImage := Js.or_else (option_map url (media response)) "" |}
     | Rejected e => Throws e
     end, advance w (S k) (attemptsTrace opts (S k))).
Proof.
  intros Hk Hpre Hdec.
  destruct (upstream (calls w + S k) opts) as [response | e] eqn:E.
  - now apply sv_loop_returns.
  - now apply sv_loop_throws.
Qed.

End Iteration.

End SingleViewFacts.

(** ** One iteration of the retry loop of [generateAiModelFlow] *)

Module AiModelFacts.

Import GenerateAiModel.

Section Iteration.

Variable upstream : Upstream.
Variable input : GenerateAiModelInput.

Local Abbreviation opts := (generateOptions input).

Lemma ai_iteration_returns attempt lastError w response m :
  upstream (calls w + 1) opts = Fulfilled response ->
  media response = Some m ->
  iteration upstream input attempt lastError w
  = (Normal (Return {| modelImage := url m |}), advance w 1 [EvGenerate opts]).
Proof.
  intros H Hm. unfold iteration, try_catch, bind.
  now rewrite (ai_generate_fulfilled _ _ _ _ H), Hm.
Qed.

(** On a response without media the dereference raises inside the
    [try]; the error is not an overload, so it is thrown on. *)
Lemma ai_iteration_null_media attempt lastError w response :
  upstream (calls w + 1) opts = Fulfilled response ->
  media response = None ->
  iteration upstream input attempt lastError w
  = (Throws Js.nullDeref, advance w 1 [EvGenerate opts]).
Proof.
  intros H Hm. unfold iteration, try_catch, bind.
  now rewrite (ai_generate_fulfilled _ _ _ _ H), Hm.
Qed.

Lemma ai_iteration_continues attempt lastError w e :
  upstream (calls w + 1) opts = Rejected e ->
  Js.is503 e = true ->
  attempt < maxRetries ->
  iteration upstream input attempt lastError w
  = (Normal (Continue e), advance w 1 [EvGenerate opts; EvSleep 3000]).
Proof.
  intros H H503 Hlt. unfold iteration, try_catch.
  unfold bind at 1. rewrite (ai_generate_rejected _ _ _ _ H).
  apply Nat.ltb_lt in Hlt. rewrite H503, Hlt. cbn [andb].
  unfold bind. rewrite sleep_advance, advance_advance. reflexivity.
Qed.

Lemma ai_iteration_throws attempt lastError w e :
  upstream (calls w + 1) opts = Rejected e ->
  Js.is503 e = false \/ maxRetries <= attempt ->
  iteration upstream input attempt lastError w
  = (Throws e, advance w 1 [EvGenerate opts]).
Proof.
  intros H Hstop. unfold iteration, try_catch.
  unfold bind at 1. rewrite (ai_generate_rejected _ _ _ _ H).
  assert (Js.is503 e && (attempt <? maxRetries)%nat = false) as ->.
  { destruct Hstop as [-> | Hle]; [reflexivity|].
    apply Nat.ltb_ge in Hle. rewrite Hle. apply andb_false_r. }
  reflexivity.
Qed.

Lemma ai_iteration_retryable attempt lastError w :
  attempt < maxRetries ->
  overloaded (upstream (calls w + 1) opts) ->
  exists e,
    iteration upstream input attempt lastError w
    = (Normal (Continue e), advance w 1 [EvGenerate opts; EvSleep 3000]).
Proof.
  intros Hlt Hov. apply overloaded_is503 in Hov as (e & He & H503).
  exists e. now apply ai_iteration_continues.
Qed.

Lemma ai_flow_is_loop w :
  generateAiModel upstream input w = retryLoop upstream input w.
Proof.
  unfold generateAiModel, generateAiModelFlow, Genkit.defineFlow.
  cbn [GenerateAiModelInputSchema Genkit.z_string].
  unfold bind, ret.
  destruct (retryLoop upstream input w) as [[out|e] w']; reflexivity.
Qed.

Lemma ai_loop_ends k w c w' after s :
  k < maxRetries ->
  (forall j, 1 <= j <= k -> overloaded (upstream (calls w + j) opts)) ->
  (forall s', iteration upstream input (1 + k) s' (advance w k (failedAttempts opts k))
              = (match c with
                 | Normal a => Normal (Return a)
                 | Throws e => Throws e
                 end, advance (advance w k (failedAttempts opts k)) 1 [EvGenerate opts])) ->
  w' = advance w (S k) (attemptsTrace opts (S k)) ->
  for_from_to 1 maxRetries (iteration upstream input) after s w = (c, w').
Proof.
  intros Hk Hpre Hend ->. unfold for_from_to.
  apply (for_loop_ends _ _ maxRetries opts
           (fun n => overloaded (upstream n opts))
           ai_iteration_retryable k);
    [unfold maxRetries in *; lia | reflexivity | exact Hpre |].
  intros s'. rewrite Hend.
  now rewrite advance_advance, attemptsTrace_failedAttempts, Nat.add_1_r.
Qed.

Lemma ai_loop_returns k w response m after s :
  k < maxRetries ->
  (forall j, 1 <= j <= k -> overloaded (upstream (calls w + j) opts)) ->
  upstream (calls w + S k) opts = Fulfilled response ->
  media response = Some m ->
  for_from_to 1 maxRetries (iteration upstream input) after s w
  = (Normal {| modelImage := url m |}, advance w (S k) (attemptsTrace opts (S k))).
Proof.
  intros Hk Hpre Hok Hm.
  apply (ai_loop_ends k w (Normal _)); [assumption .. | | reflexivity].
  intros s'. apply (ai_iteration_returns _ _ _ response); [|assumption].
  cbn [calls advance]. now rewrite <- Nat.add_assoc, Nat.add_1_r.
Qed.

Lemma ai_loop_null_media k w response after s :
  k < maxRetries ->
  (forall j, 1 <= j <= k -> overloaded (upstream (calls w + j) opts)) ->
  upstream (calls w + S k) opts = Fulfilled response ->
  media response = None ->
  for_from_to 1 maxRetries (iteration upstream input) after s w
  = (Throws Js.nullDeref, advance w (S k) (attemptsTrace opts (S k))).
Proof.
  intros Hk Hpre Hok Hm.
  apply (ai_loop_ends k w (Throws _)); [assumption .. | | reflexivity].
  intros s'. apply (ai_iteration_null_media _ _ _ response); [|assumption].
  cbn [calls advance]. now rewrite <- Nat.add_assoc, Nat.add_1_r.
Qed.

Lemma ai_loop_throws k w e after s :
  k < maxRetries ->
  (forall j, 1 <= j <= k -> overloaded (upstream (calls w + j) opts)) ->
  upstream (calls w + S k) opts = Rejected e ->
  Js.is503 e = false \/ S k = maxRetries ->
  for_from_to 1 maxRetries (iteration upstream input) after s w
  = (Throws e, advance w (S k) (attemptsTrace opts (S k))).
Proof.
  intros Hk Hpre Hrej Hstop.
  apply (ai_loop_ends k w (Throws _)); [assumption .. | | reflexivity].
  intros s'. apply ai_iteration_throws.
  - cbn [calls advance]. now rewrite <- Nat.add_assoc, Nat.add_1_r.
  - destruct Hstop as [H|H]; [now left | right; rewrite <- H; cbn; lia].
Qed.

Lemma ai_loop_fulfilled k w response after s :
  k < maxRetries ->
  (forall j, 1 <= j <= k -> overloaded (upstream (calls w + j) opts)) ->
  upstream (calls w + S k) opts = Fulfilled response ->
  for_from_to 1 maxRetries (iteration upstream input) after s w
  = (match media response with
     | Some m => Normal {| modelImage := url m |}
     | None => Throws Js.nullDeref
     end, advance w (S k) (attemptsTrace opts (S k))).
Proof.
  intros Hk Hpre Hok. destruct (media response) as [m|] eqn:Hm.
  - now apply (ai_loop_returns k w response).
  - now apply (ai_loop_null_media k w response).
Qed.


(** The loop, given the attempt that decides it. *)
Lemma ai_loop_decided k w after s :
  k < maxRetries ->
  (forall j, 1 <= j <= k -> overloaded (upstream (calls w + j) opts)) ->
  decisive k (upstream (calls w + S k) opts) ->
  for_from_to 1 maxRetries (iteration upstream input) after s w
  = (match upstream (calls w + S k) opts with
     | Fulfilled response =>
         match media response with
         | Some m => Normal {| modelImage := url m |}
         | None => Throws Js.nullDeref
         end
     | Rejected e => Throws e
     end, advance w (S k) (attemptsTrace opts (S k))).
Proof.
  intros Hk Hpre Hdec.
  destruct (upstream (calls w + S k) opts) as [response | e] eqn:E.
  - now apply ai_loop_fulfilled.
  - now apply ai_loop_throws.
Qed.

End Iteration.

End AiModelFacts.

(** * The retry policy of [generateSingleViewComposite] *)

Section SingleViewPolicy.

Import SingleViewComposite.

Variable upstream : Upstream.
Variable input : SingleViewCompositeInput.
Variable w : World.

Local Abbreviation opts := (generateOptions input).

(** C1.  Against an upstream whose every invocation fails with an
    [Error] whose message contains 503, [generateSingleViewComposite]
    makes exactly 3 upstream attempts with exactly 2 waits of 3000 ms
    between them, and then throws the error of the third attempt. *)
Theorem retry_bound_on_persistent_overload :
  SingleViewCompositeInputSchema input = true ->
  (forall n, overloaded (upstream n opts)) ->
  exists e3,
    upstream (calls w + 3) opts = Rejected e3
    /\ generateSingleViewComposite upstream input w
       = (Throws e3,
          {| calls := calls w + 3;
             trace := trace w ++ [ EvGenerate opts; EvSleep 3000;
                                   EvGenerate opts; EvSleep 3000;
                                   EvGenerate opts ];
             page := page w |}).
Proof.
  intros Hin Hall.
  destruct (overloaded_any_rejection _ (Hall (calls w + 3))) as [e3 H3].
  exists e3. split; [exact H3|].
  rewrite SingleViewFacts.sv_flow_is_loop by exact Hin.
  apply (SingleViewFacts.sv_loop_throws upstream input 2 w e3);
    [unfold maxRetries; lia | intros j _; apply Hall | exact H3 | now right].
Qed.

(** C2.  An attempt that fails with an error without the overload
    signature ends the call at once: after [k] overload failures, a
    different error at attempt [k + 1] is thrown as it is, the trace ends
    with that attempt (no wait follows it, no attempt follows it); when it
    is the first attempt, exactly one upstream attempt is made. *)
Theorem no_retry_on_other_error k e :
  SingleViewCompositeInputSchema input = true ->
  k < 3 ->
  (forall j, 1 <= j <= k -> overloaded (upstream (calls w + j) opts)) ->
  upstream (calls w + S k) opts = Rejected e ->
  Js.is503 e = false ->
  generateSingleViewComposite upstream input w
  = (Throws e,
     {| calls := calls w + S k;
        trace := trace w ++ attemptsTrace opts (S k);
        page := page w |})
  /\ (k = 0 ->
      generateSingleViewComposite upstream input w
      = (Throws e,
         {| calls := calls w + 1;
            trace := trace w ++ [EvGenerate opts];
            page := page w |})).
Proof.
  intros Hin Hk Hpre Hrej Hno.
  assert (generateSingleViewComposite upstream input w
          = (Throws e, advance w (S k) (attemptsTrace opts (S k)))) as H.
  { rewrite SingleViewFacts.sv_flow_is_loop by exact Hin.
    apply (SingleViewFacts.sv_loop_throws upstream input k w e);
      [exact Hk | exact Hpre | exact Hrej | now left]. }
  split; [exact H|].
  intros ->. exact H.
Qed.

(** C3.  An overload failure on attempt 1 followed by a success on
    attempt 2: the call returns the image of the second response, after
    exactly one wait of 3000 ms. *)
Theorem success_after_transient_failure response :
  SingleViewCompositeInputSchema input = true ->
  overloaded (upstream (calls w + 1) opts) ->
  upstream (calls w + 2) opts = Fulfilled response ->
  generateSingleViewComposite upstream input w
  = (Normal {| compositeImage := match media response with
                                 | Some m => url m
                                 | None => ""
                                 end |},
     {| calls := calls w + 2;
        trace := trace w ++ [EvGenerate opts; EvSleep 3000; EvGenerate opts];
        page := page w |}).
Proof.
  intros Hin H1 H2.
  rewrite SingleViewFacts.sv_flow_is_loop by exact Hin.
  unfold retryLoop.
  rewrite (SingleViewFacts.sv_loop_returns upstream input 1 w response);
    [ | unfold maxRetries; lia
      | now apply (prefix_1 (fun n => overloaded (upstream n opts)))
      | exact H2 ].
  destruct (media response) as [[[|c u]]|]; reflexivity.
Qed.

(** C4.  An upstream success without image payload is not an error: the
    call resolves with the empty string as its image reference.  This
    holds at whichever attempt the success arrives. *)
Theorem empty_payload_is_not_an_error k response :
  SingleViewCompositeInputSchema input = true ->
  k < 3 ->
  (forall j, 1 <= j <= k -> overloaded (upstream (calls w + j) opts)) ->
  upstream (calls w + S k) opts = Fulfilled response ->
  media response = None ->
  generateSingleViewComposite upstream input w
  = (Normal {| compositeImage := "" |},
     {| calls := calls w + S k;
        trace := trace w ++ attemptsTrace opts (S k);
        page := page w |}).
Proof.
  intros Hin Hk Hpre Hok Hnone.
  rewrite SingleViewFacts.sv_flow_is_loop by exact Hin.
  unfold retryLoop.
  rewrite (SingleViewFacts.sv_loop_returns upstream input k w response);
    [ | exact Hk | exact Hpre | exact Hok ].
  now rewrite Hnone.
Qed.

End SingleViewPolicy.

(** The four properties on scripted upstreams, from the initial world. *)

Lemma retry_bound_on_persistent_overload_run :
  exists e3,
    Sample.alwaysOverloaded (calls world0 + 3)
      (SingleViewComposite.generateOptions Sample.input) = Rejected e3
    /\ SingleViewComposite.generateSingleViewComposite Sample.alwaysOverloaded
         Sample.input world0
       = (Throws e3,
          {| calls := calls world0 + 3;
             trace := trace world0
                      ++ [ EvGenerate (SingleViewComposite.generateOptions Sample.input);
                           EvSleep 3000;
                           EvGenerate (SingleViewComposite.generateOptions Sample.input);
                           EvSleep 3000;
                           EvGenerate (SingleViewComposite.generateOptions Sample.input) ];
             page := page world0 |}).
Proof.
  apply (retry_bound_on_persistent_overload Sample.alwaysOverloaded Sample.input world0).
  - reflexivity.
  - intros n. eexists. split; reflexivity.
Defined.

Lemma no_retry_on_other_error_run :
  SingleViewComposite.generateSingleViewComposite Sample.alwaysQuota Sample.input world0
  = (Throws Sample.quotaError,
     {| calls := calls world0 + 1;
        trace := trace world0
                 ++ attemptsTrace (SingleViewComposite.generateOptions Sample.input) 1;
        page := page world0 |})
  /\ (0 = 0 ->
      SingleViewComposite.generateSingleViewComposite Sample.alwaysQuota Sample.input world0
      = (Throws Sample.quotaError,
         {| calls := calls world0 + 1;
            trace := trace world0
                     ++ [EvGenerate (SingleViewComposite.generateOptions Sample.input)];
            page := page world0 |})).
Proof.
  apply (no_retry_on_other_error Sample.alwaysQuota Sample.input world0 0 Sample.quotaError).
  - reflexivity.
  - lia.
  - intros j Hj. lia.
  - reflexivity.
  - reflexivity.
Defined.

Lemma success_after_transient_failure_run :
  SingleViewComposite.generateSingleViewComposite Sample.overloadedOnce Sample.input world0
  = (Normal {| SingleViewComposite.compositeImage :=
                 match media Sample.withImage with
                 | Some m => url m
                 | None => ""
                 end |},
     {| calls := calls world0 + 2;
        trace := trace world0
                 ++ [ EvGenerate (SingleViewComposite.generateOptions Sample.input);
                      EvSleep 3000;
                      EvGenerate (SingleViewComposite.generateOptions Sample.input) ];
        page := page world0 |}).
Proof.
  apply (success_after_transient_failure Sample.overloadedOnce Sample.input world0
           Sample.withImage).
  - reflexivity.
  - eexists. split; reflexivity.
  - reflexivity.
Defined.

Lemma empty_payload_is_not_an_error_run :
  SingleViewComposite.generateSingleViewComposite Sample.neverImage Sample.input world0
  = (Normal {| SingleViewComposite.compositeImage := "" |},
     {| calls := calls world0 + 1;
        trace := trace world0
                 ++ attemptsTrace (SingleViewComposite.generateOptions Sample.input) 1;
        page := page world0 |}).
Proof.
  apply (empty_payload_is_not_an_error Sample.neverImage Sample.input world0 0
           Sample.withoutImage).
  - reflexivity.
  - lia.
  - intros j Hj. lia.
  - reflexivity.
  - reflexivity.
Defined.

(** * [generateAiModel] against [generateSingleViewComposite] *)

(** C5, as stated, fails on a success without image payload: against an
    upstream that resolves without media, [generateSingleViewComposite]
    resolves with the empty string, while [generateAiModel] throws the
    [TypeError] of [media!.url]. *)
Lemma ai_model_throws_on_empty_payload :
  SingleViewComposite.generateSingleViewComposite Sample.neverImage Sample.input world0
  = (Normal {| SingleViewComposite.compositeImage := "" |},
     {| calls := 1;
        trace := [EvGenerate (SingleViewComposite.generateOptions Sample.input)];
        page := Client.initialPage |})
  /\ GenerateAiModel.generateAiModel Sample.neverImage Sample.modelInput world0
     = (Throws (Js.ErrorObj "Cannot read properties of null (reading 'url')"),
        {| calls := 1;
           trace := [EvGenerate (GenerateAiModel.generateOptions Sample.modelInput)];
           page := Client.initialPage |}).
Proof. split; reflexivity. Qed.

(** C5, amended.  [generateAiModel] applies the retry policy of
    [generateSingleViewComposite]: against an upstream that answers both
    requests alike, the same attempt [k + 1] of at most 3 decides both
    calls, after the same [k] overload failures and [k] waits of 3000 ms;
    both throw the same error, or return the same image reference.  Only a
    success without image payload separates them: there
    [generateSingleViewComposite] resolves with the empty string and
    [generateAiModel] throws the [TypeError] of the dereference, without a
    further attempt. *)
Theorem ai_model_retry_policy_matches
  (upstream : Upstream)
  (inputS : SingleViewComposite.SingleViewCompositeInput)
  (inputA : GenerateAiModel.GenerateAiModelInput) (w : World) :
  SingleViewComposite.SingleViewCompositeInputSchema inputS = true ->
  (forall n, upstream n (GenerateAiModel.generateOptions inputA)
             = upstream n (SingleViewComposite.generateOptions inputS)) ->
  exists k,
    k < 3
    /\ (forall j, 1 <= j <= k ->
          overloaded (upstream (calls w + j) (SingleViewComposite.generateOptions inputS)))
    /\ decisive k (upstream (calls w + S k) (SingleViewComposite.generateOptions inputS))
    /\ snd (SingleViewComposite.generateSingleViewComposite upstream inputS w)
       = {| calls := calls w + S k;
            trace := trace w
                     ++ attemptsTrace (SingleViewComposite.generateOptions inputS) (S k);
            page := page w |}
    /\ snd (GenerateAiModel.generateAiModel upstream inputA w)
       = {| calls := calls w + S k;
            trace := trace w ++ attemptsTrace (GenerateAiModel.generateOptions inputA) (S k);
            page := page w |}
    /\ match upstream (calls w + S k) (SingleViewComposite.generateOptions inputS) with
       | Rejected e =>
           fst (SingleViewComposite.generateSingleViewComposite upstream inputS w) = Throws e
           /\ fst (GenerateAiModel.generateAiModel upstream inputA w) = Throws e
       | Fulfilled response =>
           match media response with
           | Some m =>
               fst (SingleViewComposite.generateSingleViewComposite upstream inputS w)
               = Normal {| SingleViewComposite.compositeImage := url m |}
               /\ fst (GenerateAiModel.generateAiModel upstream inputA w)
                  = Normal {| GenerateAiModel.modelImage := url m |}
           | None =>
               fst (SingleViewComposite.generateSingleViewComposite upstream inputS w)
               = Normal {| SingleViewComposite.compositeImage := "" |}
               /\ fst (GenerateAiModel.generateAiModel upstream inputA w)
                  = Throws Js.nullDeref
           end
       end.
Proof.
  intros Hin Hsame.
  destruct (deciding_attempt upstream (SingleViewComposite.generateOptions inputS) (calls w))
    as (k & Hk & Hpre & Hdec).
  exists k. split; [exact Hk|]. split; [exact Hpre|]. split; [exact Hdec|].
  rewrite SingleViewFacts.sv_flow_is_loop by exact Hin.
  rewrite AiModelFacts.ai_flow_is_loop.
  unfold SingleViewComposite.retryLoop, GenerateAiModel.retryLoop.
  rewrite (SingleViewFacts.sv_loop_decided upstream inputS k w) by assumption.
  rewrite (AiModelFacts.ai_loop_decided upstream inputA k w);
    [ | exact Hk | intros j Hj; rewrite Hsame; now apply Hpre | now rewrite Hsame ].
  rewrite Hsame. cbn [fst snd].
  repeat split.
  destruct (upstream (calls w + S k) (SingleViewComposite.generateOptions inputS))
    as [response | e]; [|now split].
  destruct (media response) as [[u]|]; [|now split].
  split; [|reflexivity]. cbn. now destruct u.
Qed.

Lemma ai_model_retry_policy_matches_run :
  exists k,
    k < 3
    /\ (forall j, 1 <= j <= k ->
          overloaded (Sample.overloadedOnce (calls world0 + j)
                        (SingleViewComposite.generateOptions Sample.input)))
    /\ decisive k (Sample.overloadedOnce (calls world0 + S k)
                     (SingleViewComposite.generateOptions Sample.input))
    /\ snd (SingleViewComposite.generateSingleViewComposite Sample.overloadedOnce
              Sample.input world0)
       = {| calls := calls world0 + S k;
            trace := trace world0
                     ++ attemptsTrace (SingleViewComposite.generateOptions Sample.input) (S k);
            page := page world0 |}
    /\ snd (GenerateAiModel.generateAiModel Sample.overloadedOnce Sample.modelInput world0)
       = {| calls := calls world0 + S k;
            trace := trace world0
                     ++ attemptsTrace (GenerateAiModel.generateOptions Sample.modelInput) (S k);
            page := page world0 |}
    /\ match Sample.overloadedOnce (calls world0 + S k)
               (SingleViewComposite.generateOptions Sample.input) with
       | Rejected e =>
           fst (SingleViewComposite.generateSingleViewComposite Sample.overloadedOnce
                  Sample.input world0) = Throws e
           /\ fst (GenerateAiModel.generateAiModel Sample.overloadedOnce
                     Sample.modelInput world0) = Throws e
       | Fulfilled response =>
           match media response with
           | Some m =>
               fst (SingleViewComposite.generateSingleViewComposite Sample.overloadedOnce
                      Sample.input world0)
               = Normal {| SingleViewComposite.compositeImage := url m |}
               /\ fst (GenerateAiModel.generateAiModel Sample.overloadedOnce
                         Sample.modelInput world0)
                  = Normal {| GenerateAiModel.modelImage := url m |}
           | None =>
               fst (SingleViewComposite.generateSingleViewComposite Sample.overloadedOnce
                      Sample.input world0)
               = Normal {| SingleViewComposite.compositeImage := "" |}
               /\ fst (GenerateAiModel.generateAiModel Sample.overloadedOnce
                         Sample.modelInput world0)
                  = Throws Js.nullDeref
           end
       end.
Proof.
  apply (ai_model_retry_policy_matches Sample.overloadedOnce Sample.input
           Sample.modelInput world0).
  - reflexivity.
  - intros n. reflexivity.
Defined.

(** * The code after the retry loops *)



(** * The request that is sent upstream *)

(** Every upstream request of a call carries the options built from its
    input, and there is at least one. *)
Lemma single_view_requests
  (upstream : Upstream) (input : SingleViewComposite.SingleViewCompositeInput) (w : World) :
  SingleViewComposite.SingleViewCompositeInputSchema input = true ->
  exists k,
    k < 3
    /\ snd (SingleViewComposite.generateSingleViewComposite upstream input w)
       = advance w (S k) (attemptsTrace (SingleViewComposite.generateOptions input) (S k)).
Proof.
  intros Hin.
  destruct (deciding_attempt upstream (SingleViewComposite.generateOptions input) (calls w))
    as (k & Hk & Hpre & Hdec).
  exists k. split; [exact Hk|].
  rewrite SingleViewFacts.sv_flow_is_loop by exact Hin.
  unfold SingleViewComposite.retryLoop.
  now rewrite (SingleViewFacts.sv_loop_decided upstream input k w).
Qed.

Lemma attemptsTrace_head opts k :
  exists evs, attemptsTrace opts (S k) = EvGenerate opts :: evs.
Proof. destruct k; eexists; reflexivity. Qed.

Lemma attemptsTrace_generate opts k opts' :
  In (EvGenerate opts') (attemptsTrace opts k) -> opts' = opts.
Proof.
  induction k as [k IH] using (well_founded_induction lt_wf).
  destruct k as [|[|k]]; cbn.
  - intros [].
  - intros [H | []]. now injection H.
  - intros [H | [H | H]]; [now injection H | discriminate |].
    apply (IH (S k)); [lia | exact H].
Qed.

(** C7.  For each of the three view angles, every request that
    [generateSingleViewComposite] sends upstream carries one text, built from
    that angle alone: it opens with the sentence that names the angle,
    followed at once by the instruction of that angle and of no other
    (facing forward for [front], the 90-degree side profile for [side], the
    180-degree view from behind for [back]), goes on with the fixed
    requirements and the two descriptions, and closes on the angle again.
    The request is the one recorded in the trace, first of all events of the
    call. *)
Theorem view_angle_instruction_in_request
  (upstream : Upstream) (input : SingleViewComposite.SingleViewCompositeInput) (w : World)
  (angle instruction : string) :
  In (angle, instruction)
     [ ("front", "Show the model from the front angle, facing forward");
       ("side", "Show the model from a side profile angle (90 degrees), showing the side silhouette");
       ("back", "Show the model from behind (180 degrees), showing the back of the outfit") ] ->
  SingleViewComposite.viewAngle input = angle ->
  exists text sent,
    SingleViewComposite.generateOptions input
    = {| model := "googleai/gemini-2.0-flash-preview-image-generation";
         prompt := PromptParts [ MediaPart (SingleViewComposite.clothingImageUri input);
                                 MediaPart (SingleViewComposite.modelImageUri input);
                                 TextPart text ];
         responseModalities := ["TEXT"; "IMAGE"] |}
    /\ text
       = "Composite the clothing item from the first image onto the AI model in the second image from a "
         ++ angle ++ " view perspective. " ++ instruction ++ "." ++ nl
         ++ nl
         ++ "Requirements:" ++ nl
         ++ "- Ensure the clothing fits naturally on the model from the specified angle" ++ nl
         ++ "- Maintain realistic lighting and shadows  " ++ nl
         ++ "- Preserve the clothing's original colors and textures" ++ nl
         ++ "- Create a professional fashion photography look" ++ nl
         ++ "- Show how the garment drapes and fits from this specific perspective" ++ nl
         ++ nl
         ++ "Model: " ++ SingleViewComposite.modelDescription input ++ nl
         ++ "Clothing: " ++ SingleViewComposite.clothingDescription input ++ nl
         ++ nl
         ++ "Generate a high-quality " ++ angle ++ " view composite."
    /\ String.prefix
         ("Composite the clothing item from the first image onto the AI model in the second image from a "
          ++ angle ++ " view perspective. " ++ instruction ++ "." ++ nl)
         text = true
    /\ Js.includes text instruction = true
    /\ Js.includes text ("from a " ++ angle ++ " view perspective") = true
    /\ trace (snd (SingleViewComposite.generateSingleViewComposite upstream input w))
       = (trace w ++ EvGenerate (SingleViewComposite.generateOptions input) :: sent)%list
    /\ forall opts, In (EvGenerate opts) sent ->
                    opts = SingleViewComposite.generateOptions input.
Proof.
  intros Hin Hangle.
  assert (SingleViewComposite.SingleViewCompositeInputSchema input = true) as Hschema.
  { unfold SingleViewComposite.SingleViewCompositeInputSchema. rewrite Hangle.
    destruct Hin as [H | [H | [H | []]]]; injection H as <- _; reflexivity. }
  destruct (single_view_requests upstream input w Hschema) as (k & Hk & Hw).
  destruct (attemptsTrace_head (SingleViewComposite.generateOptions input) k) as [sent Hsent].
  assert (forall opts, In (EvGenerate opts) sent ->
                       opts = SingleViewComposite.generateOptions input) as Hall.
  { intros opts Hopts.
    apply (attemptsTrace_generate (SingleViewComposite.generateOptions input) (S k)).
    rewrite Hsent. now right. }
  rewrite Hw. cbn [trace advance]. rewrite Hsent. clear Hw Hsent.
  destruct input as [ci mi cd md va]. cbn in Hangle. subst va.
  destruct Hin as [H | [H | [H | []]]]; injection H as <- <-;
    eexists; exists sent; (split; [reflexivity|]);
    (split; [reflexivity|]);
    (split; [vm_compute; reflexivity|]);
    (split; [vm_compute; reflexivity|]);
    (split; [vm_compute; reflexivity|]);
    (split; [reflexivity | exact Hall]).
Qed.

Lemma view_angle_instruction_in_request_run :
  exists text sent,
    SingleViewComposite.generateOptions Sample.input
    = {| model := "googleai/gemini-2.0-flash-preview-image-generation";
         prompt := PromptParts [ MediaPart (SingleViewComposite.clothingImageUri Sample.input);
                                 MediaPart (SingleViewComposite.modelImageUri Sample.input);
                                 TextPart text ];
         responseModalities := ["TEXT"; "IMAGE"] |}
    /\ text
       = "Composite the clothing item from the first image onto the AI model in the second image from a "
         ++ "front" ++ " view perspective. "
         ++ "Show the model from the front angle, facing forward" ++ "." ++ nl
         ++ nl
         ++ "Requirements:" ++ nl
         ++ "- Ensure the clothing fits naturally on the model from the specified angle" ++ nl
         ++ "- Maintain realistic lighting and shadows  " ++ nl
         ++ "- Preserve the clothing's original colors and textures" ++ nl
         ++ "- Create a professional fashion photography look" ++ nl
         ++ "- Show how the garment drapes and fits from this specific perspective" ++ nl
         ++ nl
         ++ "Model: " ++ SingleViewComposite.modelDescription Sample.input ++ nl
         ++ "Clothing: " ++ SingleViewComposite.clothingDescription Sample.input ++ nl
         ++ nl
         ++ "Generate a high-quality " ++ "front" ++ " view composite."
    /\ String.prefix
         ("Composite the clothing item from the first image onto the AI model in the second image from a "
          ++ "front" ++ " view perspective. "
          ++ "Show the model from the front angle, facing forward" ++ "." ++ nl)
         text = true
    /\ Js.includes text "Show the model from the front angle, facing forward" = true
    /\ Js.includes text ("from a " ++ "front" ++ " view perspective") = true
    /\ trace (snd (SingleViewComposite.generateSingleViewComposite Sample.overloadedOnce
                     Sample.input world0))
       = (trace world0
          ++ EvGenerate (SingleViewComposite.generateOptions Sample.input) :: sent)%list
    /\ forall opts, In (EvGenerate opts) sent ->
                    opts = SingleViewComposite.generateOptions Sample.input.
Proof.
  apply (view_angle_instruction_in_request Sample.overloadedOnce Sample.input world0
           "front" "Show the model from the front angle, facing forward").
  - left. reflexivity.
  - reflexivity.
Defined.

(** * Missing inputs *)

(** The guard of [handleCreateTryOn]: with a field missing, the handler
    notifies and returns; nothing else happens. *)
Lemma handleCreateTryOn_guard (upstream : Upstream) (w : World) :
  negb (Js.truthy (Client.clothingImage (page w)))
  || negb (Js.truthy (Client.modelImage (page w)))
  || negb (Page.truthyObject (Client.clothingAnalysis (page w))) = true ->
  Page.handleCreateTryOn upstream w
  = (Normal tt,
     {| calls := calls w;
        trace := trace w ++ [EvToast missingImagesToast];
        page := page w |}).
Proof.
  intros Hguard. unfold Page.handleCreateTryOn, bind, Page.getPage.
  rewrite Hguard. reflexivity.
Qed.

(** With the three fields present, the handler does call the flow. *)
Lemma handleCreateTryOn_ready_run :
  exists opts,
    Page.handleCreateTryOn Sample.alwaysImage (Sample.worldOn Sample.pageReady)
    = (Normal tt,
       {| calls := 1;
          trace := [EvGenerate opts];
          page :=
            {| Client.clothingImage := Client.clothingImage Sample.pageReady;
               Client.clothingAnalysis := Client.clothingAnalysis Sample.pageReady;
               Client.modelImage := Client.modelImage Sample.pageReady;
               Client.compositeImage := Some Sample.image;
               Client.loadingStates := Client.loadingStates Sample.pageReady;
               Client.modelForm := Client.modelForm Sample.pageReady |} |}).
Proof. eexists. vm_compute. reflexivity. Qed.

(** C6, as stated, fails: [generateSingleViewComposite] called with an
    empty clothing-image reference sends the request upstream, empty
    reference included, and resolves with what the upstream returns. *)
Lemma empty_clothing_reference_is_sent_upstream :
  SingleViewComposite.clothingImageUri Sample.inputWithoutClothing = ""
  /\ SingleViewComposite.generateSingleViewComposite Sample.alwaysImage
       Sample.inputWithoutClothing world0
     = (Normal {| SingleViewComposite.compositeImage := Sample.image |},
        {| calls := 1;
           trace := [EvGenerate (SingleViewComposite.generateOptions Sample.inputWithoutClothing)];
           page := Client.initialPage |})
  /\ exists text,
       prompt (SingleViewComposite.generateOptions Sample.inputWithoutClothing)
       = PromptParts [ MediaPart ""; MediaPart "data:image/png;base64,BBBB"; TextPart text ].
Proof. split; [reflexivity|]. split; [reflexivity|]. eexists. reflexivity. Qed.

(** C6, amended.  The input schema of [generateSingleViewComposite] takes
    any string for the two image references, so the flow does not refuse an
    empty one: whenever the view angle is one of the three, the call starts
    with an upstream request that carries both references as they were
    given.  An empty or absent image is refused, with a notification and
    without any upstream call, by the caller [handleCreateTryOn]. *)
Theorem empty_references_refused_by_caller_only
  (upstream : Upstream) (input : SingleViewComposite.SingleViewCompositeInput) (w : World) :
  Genkit.z_enum ["front"; "side"; "back"] (SingleViewComposite.viewAngle input) = true ->
  SingleViewComposite.SingleViewCompositeInputSchema input = true
  /\ (exists text sent,
        trace (snd (SingleViewComposite.generateSingleViewComposite upstream input w))
        = (trace w
           ++ EvGenerate
                {| model := "googleai/gemini-2.0-flash-preview-image-generation";
                   prompt := PromptParts
                               [ MediaPart (SingleViewComposite.clothingImageUri input);
                                 MediaPart (SingleViewComposite.modelImageUri input);
                                 TextPart text ];
                   responseModalities := ["TEXT"; "IMAGE"] |} :: sent)%list
        /\ calls w + 1 <= calls (snd (SingleViewComposite.generateSingleViewComposite
                                        upstream input w)))
  /\ (Js.truthy (Client.clothingImage (page w)) = false
      \/ Js.truthy (Client.modelImage (page w)) = false ->
      Page.handleCreateTryOn upstream w
      = (Normal tt,
         {| calls := calls w;
            trace := trace w ++ [EvToast missingImagesToast];
            page := page w |})).
Proof.
  intros Hangle.
  assert (SingleViewComposite.SingleViewCompositeInputSchema input = true) as Hschema.
  { unfold SingleViewComposite.SingleViewCompositeInputSchema. now rewrite Hangle. }
  split; [exact Hschema|]. split.
  - destruct (single_view_requests upstream input w Hschema) as (k & Hk & ->).
    destruct (attemptsTrace_head (SingleViewComposite.generateOptions input) k) as [sent Hsent].
    eexists; exists sent. cbn [snd trace calls advance]. rewrite Hsent.
    split; [reflexivity | lia].
  - intros Hmissing. apply handleCreateTryOn_guard.
    destruct Hmissing as [-> | ->]; cbn [negb orb]; [reflexivity|].
    now rewrite orb_true_r.
Qed.

Lemma empty_references_refused_by_caller_only_run :
  SingleViewComposite.SingleViewCompositeInputSchema Sample.inputWithoutClothing = true
  /\ (exists text sent,
        trace (snd (SingleViewComposite.generateSingleViewComposite Sample.alwaysImage
                      Sample.inputWithoutClothing (Sample.worldOn Sample.pageWithoutClothing)))
        = (trace (Sample.worldOn Sample.pageWithoutClothing)
           ++ EvGenerate
                {| model := "googleai/gemini-2.0-flash-preview-image-generation";
                   prompt := PromptParts
                               [ MediaPart (SingleViewComposite.clothingImageUri
                                              Sample.inputWithoutClothing);
                                 MediaPart (SingleViewComposite.modelImageUri
                                              Sample.inputWithoutClothing);
                                 TextPart text ];
                   responseModalities := ["TEXT"; "IMAGE"] |} :: sent)%list
        /\ calls (Sample.worldOn Sample.pageWithoutClothing) + 1
           <= calls (snd (SingleViewComposite.generateSingleViewComposite Sample.alwaysImage
                            Sample.inputWithoutClothing
                            (Sample.worldOn Sample.pageWithoutClothing))))
  /\ (Js.truthy (Client.clothingImage (page (Sample.worldOn Sample.pageWithoutClothing)))
      = false
      \/ Js.truthy (Client.modelImage (page (Sample.worldOn Sample.pageWithoutClothing)))
         = false ->
      Page.handleCreateTryOn Sample.alwaysImage (Sample.worldOn Sample.pageWithoutClothing)
      = (Normal tt,
         {| calls := calls (Sample.worldOn Sample.pageWithoutClothing);
            trace := trace (Sample.worldOn Sample.pageWithoutClothing)
                     ++ [EvToast missingImagesToast];
            page := page (Sample.worldOn Sample.pageWithoutClothing) |})).
Proof.
  apply (empty_references_refused_by_caller_only Sample.alwaysImage
           Sample.inputWithoutClothing (Sample.worldOn Sample.pageWithoutClothing)).
  reflexivity.
Defined.

(** C8.  In [handleCreateTryOn], a missing clothing image, a missing model
    image (each [null] or empty) or a missing clothing analysis is detected
    before anything else: the handler raises the "Missing Images"
    notification and returns.  The upstream is not called, nothing waits,
    nothing is retried, and the page state is left as it was. *)
Theorem missing_field_detected_before_any_call (upstream : Upstream) (w : World) :
  Js.truthy (Client.clothingImage (page w)) = false
  \/ Js.truthy (Client.modelImage (page w)) = false
  \/ Client.clothingAnalysis (page w) = None ->
  Page.handleCreateTryOn upstream w
  = (Normal tt,
     {| calls := calls w;
        trace := trace w
                 ++ [EvToast {| variant := "destructive";
                                title := "Missing Images";
                                description :=
                                  "Please upload a clothing item and generate a model first." |}];
        page := page w |}).
Proof.
  intros Hmissing. apply handleCreateTryOn_guard.
  destruct Hmissing as [-> | [-> | ->]]; cbn [negb orb Page.truthyObject].
  - reflexivity.
  - now rewrite orb_true_r.
  - now rewrite orb_true_r.
Qed.

Lemma missing_field_detected_before_any_call_run :
  Page.handleCreateTryOn Sample.alwaysImage (Sample.worldOn Sample.pageWithoutClothing)
  = (Normal tt,
     {| calls := calls (Sample.worldOn Sample.pageWithoutClothing);
        trace := trace (Sample.worldOn Sample.pageWithoutClothing)
                 ++ [EvToast {| variant := "destructive";
                                title := "Missing Images";
                                description :=
                                  "Please upload a clothing item and generate a model first." |}];
        page := page (Sample.worldOn Sample.pageWithoutClothing) |}).
Proof.
  apply (missing_field_detected_before_any_call Sample.alwaysImage
           (Sample.worldOn Sample.pageWithoutClothing)).
  left. reflexivity.
Defined.

(** * [Promise.all] and the multi-angle flow *)

Section PromiseAll.

Import MultiAngleComposite.

Context {A : Type}.

Lemma firstRejection_none (ps : list (Promise A)) :
  firstRejection ps = None ->
  forall p, In p ps -> exists v, outcome p = Fulfilled v.
Proof.
  induction ps as [|q ps IH]; cbn; [intros _ p []|].
  destruct (outcome q) as [v | e] eqn:E.
  - intros H p [<- | Hp]; [now exists v | now apply IH].
  - destruct (firstRejection ps) as [[t e']|]; [destruct (settledAt q <=? t)%nat|]; discriminate.
Qed.

(** The rejection found is one of the list, and no rejection of the list
    settles before it. *)
Lemma firstRejection_some (ps : list (Promise A)) t e :
  firstRejection ps = Some (t, e) ->
  (exists q, In q ps /\ outcome q = Rejected e /\ settledAt q = t)
  /\ forall p e', In p ps -> outcome p = Rejected e' -> t <= settledAt p.
Proof.
  revert t e. induction ps as [|q ps IH]; cbn; [discriminate|].
  intros t e H.
  destruct (outcome q) as [v | eq] eqn:E.
  - destruct (IH t e H) as [(q' & Hin & Hq') Hmin]. split.
    + exists q'. split; [now right | exact Hq'].
    + intros p e' [<- | Hp] Hrej; [congruence | now apply (Hmin p e')].
  - destruct (firstRejection ps) as [[t0 e0]|] eqn:E0.
    + destruct (IH t0 e0 eq_refl) as [(q' & Hin & Hq' & Ht') Hmin].
      destruct (settledAt q <=? t0)%nat eqn:Hle; injection H as <- <-.
      * apply Nat.leb_le in Hle. split.
        -- exists q. now repeat split; [left | ..].
        -- intros p e' [<- | Hp] Hrej; [lia|].
           specialize (Hmin p e' Hp Hrej). lia.
      * apply Nat.leb_gt in Hle. split.
        -- exists q'. now repeat split; [right | ..].
        -- intros p e' [<- | Hp] Hrej; [lia | now apply (Hmin p e')].
    + injection H as <- <-. split.
      * exists q. now repeat split; [left | ..].
      * intros p e' [<- | Hp] Hrej; [lia|].
        destruct (firstRejection_none ps E0 p Hp) as [v Hv]. congruence.
Qed.

Lemma firstRejection_found (ps : list (Promise A)) p e :
  In p ps -> outcome p = Rejected e -> exists t e', firstRejection ps = Some (t, e').
Proof.
  intros Hin Hrej. destruct (firstRejection ps) as [[t e']|] eqn:E.
  - now exists t, e'.
  - destruct (firstRejection_none ps E p Hin) as [v Hv]. congruence.
Qed.

End PromiseAll.

Section MultiAngle.

Import MultiAngleComposite.

Variable prompts : PromptUpstream.
Variable input : MultiAngleCompositeInput.

Local Abbreviation front := (prompts "frontViewCompositePrompt" input).
Local Abbreviation side := (prompts "sideViewCompositePrompt" input).
Local Abbreviation back := (prompts "backViewCompositePrompt" input).

(** The flow starts the three prompts, then joins them. *)
Lemma multi_angle_result w :
  generateMultiAngleComposite prompts input w
  = (match firstRejection [front; side; back] with
     | Some (_, reason) => Throws reason
     | None =>
         match fulfilledValues [front; side; back] with
         | [frontResult; sideResult; backResult] =>
             Normal {| frontView := Js.or_else (outputField frontResult "frontView") "";
                       sideView := Js.or_else (outputField sideResult "sideView") "";
                       backView := Js.or_else (outputField backResult "backView") "" |}
         | _ => Throws (Js.ErrorObj "Cannot read properties of undefined (reading 'output')")
         end
     end,
     advance w 3 [ EvPrompt "frontViewCompositePrompt" (inputObject input);
                   EvPrompt "sideViewCompositePrompt" (inputObject input);
                   EvPrompt "backViewCompositePrompt" (inputObject input) ]).
Proof.
  unfold generateMultiAngleComposite, multiAngleCompositeFlow, Genkit.defineFlow.
  cbn [MultiAngleCompositeInputSchema Genkit.z_string andb].
  unfold frontViewPrompt, sideViewPrompt, backViewPrompt, callPrompt, bind, Promise_all.
  cbn [calls trace page].
  match goal with
  | |- context [match _ ?w0 with _ => _ end] =>
      replace w0
        with (advance w 3 [ EvPrompt "frontViewCompositePrompt" (inputObject input);
                            EvPrompt "sideViewCompositePrompt" (inputObject input);
                            EvPrompt "backViewCompositePrompt" (inputObject input) ])
  end.
  - destruct (firstRejection [front; side; back]) as [[t e]|]; [reflexivity|].
    destruct (fulfilledValues [front; side; back]) as [|a [|b [|c [|d l]]]]; reflexivity.
  - unfold advance. rewrite <- !app_assoc. cbn [app].
    now rewrite !Nat.add_succ_r, Nat.add_0_r.
Qed.

(** C10.  [generateMultiAngleComposite] starts the three per-angle prompts
    one after the other without awaiting any of them (all three are started
    whatever each of them settles to, and whenever), then joins them.  If
    the three are fulfilled, it returns the three views, each read from the
    response of its own prompt: the string held by the field of that view
    in the output object, and the empty string when the output is [null] or
    the object lacks the field; in particular three delivered images come
    back as they are, each in its own view.  If any of them rejects, the
    call rejects and returns no view at all: with the reason of the
    rejection that settles first, which is that of the failing call when one
    call fails (or when all failing calls carry the same reason). *)
Theorem multi_angle_join (w : World) :
  let started :=
    {| calls := calls w + 3;
       trace := trace w ++ [ EvPrompt "frontViewCompositePrompt" (inputObject input);
                             EvPrompt "sideViewCompositePrompt" (inputObject input);
                             EvPrompt "backViewCompositePrompt" (inputObject input) ];
       page := page w |} in
  let view (response : PromptResponse) (key : string) :=
    match output response with
    | Some object =>
        match Js.get object key with
        | Some image => image
        | None => ""
        end
    | None => ""
    end in
  snd (generateMultiAngleComposite prompts input w) = started
  /\ (forall frontResult sideResult backResult,
        outcome front = Fulfilled frontResult ->
        outcome side = Fulfilled sideResult ->
        outcome back = Fulfilled backResult ->
        fst (generateMultiAngleComposite prompts input w)
        = Normal {| frontView := view frontResult "frontView";
                    sideView := view sideResult "sideView";
                    backView := view backResult "backView" |})
  /\ (forall frontImage sideImage backImage frontRest sideRest backRest,
        outcome front
        = Fulfilled {| output := Some (("frontView", frontImage) :: frontRest) |} ->
        outcome side
        = Fulfilled {| output := Some (("sideView", sideImage) :: sideRest) |} ->
        outcome back
        = Fulfilled {| output := Some (("backView", backImage) :: backRest) |} ->
        fst (generateMultiAngleComposite prompts input w)
        = Normal {| frontView := frontImage;
                    sideView := sideImage;
                    backView := backImage |})
  /\ (forall sideResult backResult,
        outcome front = Fulfilled {| output := None |} ->
        outcome side = Fulfilled sideResult ->
        outcome back = Fulfilled backResult ->
        exists views,
          fst (generateMultiAngleComposite prompts input w) = Normal views
          /\ frontView views = "")
  /\ (forall p e,
        In p [front; side; back] -> outcome p = Rejected e ->
        exists q e',
          In q [front; side; back]
          /\ outcome q = Rejected e'
          /\ settledAt q <= settledAt p
          /\ fst (generateMultiAngleComposite prompts input w) = Throws e')
  /\ (forall p e,
        In p [front; side; back] -> outcome p = Rejected e ->
        (forall q e', In q [front; side; back] -> outcome q = Rejected e' -> e' = e) ->
        fst (generateMultiAngleComposite prompts input w) = Throws e).
Proof.
  intros started view.
  assert (forall response key,
             Js.or_else (outputField response key) "" = view response key) as Hor.
  { intros [[object|]] key; unfold outputField, view; cbn [output]; [|reflexivity].
    now destruct (Js.get object key) as [[|c s]|]. }
  assert (forall frontResult sideResult backResult,
             outcome front = Fulfilled frontResult ->
             outcome side = Fulfilled sideResult ->
             outcome back = Fulfilled backResult ->
             fst (generateMultiAngleComposite prompts input w)
             = Normal {| frontView := view frontResult "frontView";
                         sideView := view sideResult "sideView";
                         backView := view backResult "backView" |}) as Hall.
  { intros frontResult sideResult backResult Hf Hs Hb.
    rewrite multi_angle_result. cbn [fst firstRejection fulfilledValues].
    rewrite Hf, Hs, Hb. now rewrite !Hor. }
  assert (forall p e,
             In p [front; side; back] -> outcome p = Rejected e ->
             exists q e',
               In q [front; side; back]
               /\ outcome q = Rejected e'
               /\ settledAt q <= settledAt p
               /\ fst (generateMultiAngleComposite prompts input w) = Throws e') as Hrej.
  { intros p e Hin Hp.
    destruct (firstRejection_found _ p e Hin Hp) as (t & e' & Hfirst).
    destruct (firstRejection_some _ t e' Hfirst) as [(q & Hq & Hqe & Hqt) Hmin].
    exists q, e'. repeat split; try assumption.
    - rewrite Hqt. now apply (Hmin p e).
    - rewrite multi_angle_result, Hfirst. reflexivity. }
  split; [|split; [|split; [|split; [|split]]]].
  - now rewrite multi_angle_result.
  - exact Hall.
  - intros frontImage sideImage backImage frontRest sideRest backRest Hf Hs Hb.
    now rewrite (Hall _ _ _ Hf Hs Hb).
  - intros sideResult backResult Hf Hs Hb.
    eexists. split; [exact (Hall _ _ _ Hf Hs Hb) | reflexivity].
  - exact Hrej.
  - intros p e Hin Hp Hsame.
    destruct (Hrej p e Hin Hp) as (q & e' & Hq & Hqe & _ & ->).
    now rewrite (Hsame q e' Hq Hqe).
Qed.

End MultiAngle.

(** Two runs of the join: a race between two rejections, and three
    fulfilments with absent outputs. *)
Lemma multi_angle_race_run :
  MultiAngleComposite.generateMultiAngleComposite Sample.racingPrompts Sample.multiInput world0
  = (Throws Sample.overloadError,
     {| calls := 3;
        trace := [ EvPrompt "frontViewCompositePrompt"
                     (MultiAngleComposite.inputObject Sample.multiInput);
                   EvPrompt "sideViewCompositePrompt"
                     (MultiAngleComposite.inputObject Sample.multiInput);
                   EvPrompt "backViewCompositePrompt"
                     (MultiAngleComposite.inputObject Sample.multiInput) ];
        page := Client.initialPage |}).
Proof. reflexivity. Qed.

Lemma multi_angle_sparse_run :
  fst (MultiAngleComposite.generateMultiAngleComposite Sample.sparsePrompts
         Sample.multiInput world0)
  = Normal {| MultiAngleComposite.frontView := "";
              MultiAngleComposite.sideView := "";
              MultiAngleComposite.backView := Sample.image |}.
Proof. reflexivity. Qed.

(** * Further properties of the flows *)

Lemma generateCount_app (a b : list Event) :
  generateCount (a ++ b) = generateCount a + generateCount b.
Proof.
  induction a as [|[opts | name input | ms | props] a IH]; cbn; now rewrite ?IH.
Qed.

Lemma sleepTotal_app (a b : list Event) :
  sleepTotal (a ++ b) = sleepTotal a + sleepTotal b.
Proof.
  induction a as [|[opts | name input | ms | props] a IH]; cbn; rewrite ?IH; lia.
Qed.

Lemma toasts_app (a b : list Event) :
  toasts (a ++ b) = (toasts a ++ toasts b)%list.
Proof.
  induction a as [|[opts | name input | ms | props] a IH]; cbn; now rewrite ?IH.
Qed.

Lemma attemptsTrace_counts opts k :
  generateCount (attemptsTrace opts (S k)) = S k
  /\ sleepTotal (attemptsTrace opts (S k)) = 3000 * k
  /\ toasts (attemptsTrace opts (S k)) = [].
Proof.
  rewrite attemptsTrace_failedAttempts, generateCount_app, sleepTotal_app, toasts_app.
  induction k as [|k (IHg & IHs & IHt)].
  - repeat split; reflexivity.
  - cbn [failedAttempts generateCount sleepTotal toasts] in *.
    repeat split; [lia | lia | exact IHt].
Qed.

(** The world in which a call of [generateAiModel] ends. *)
Lemma ai_model_requests
  (upstream : Upstream) (input : GenerateAiModel.GenerateAiModelInput) (w : World) :
  exists k,
    k < 3
    /\ snd (GenerateAiModel.generateAiModel upstream input w)
       = advance w (S k) (attemptsTrace (GenerateAiModel.generateOptions input) (S k)).
Proof.
  destruct (deciding_attempt upstream (GenerateAiModel.generateOptions input) (calls w))
    as (k & Hk & Hpre & Hdec).
  exists k. split; [exact Hk|].
  rewrite AiModelFacts.ai_flow_is_loop. unfold GenerateAiModel.retryLoop.
  now rewrite (AiModelFacts.ai_loop_decided upstream input k w).
Qed.

(** An input that does not parse never reaches the body of the flow. *)
Lemma single_view_refused
  (upstream : Upstream) (input : SingleViewComposite.SingleViewCompositeInput) (w : World) :
  SingleViewComposite.SingleViewCompositeInputSchema input = false ->
  SingleViewComposite.generateSingleViewComposite upstream input w
  = (Throws Genkit.schemaError, w).
Proof.
  intros H. unfold SingleViewComposite.generateSingleViewComposite,
    SingleViewComposite.singleViewCompositeFlow, Genkit.defineFlow.
  now rewrite H.
Qed.

(** X1.  A view angle other than [front], [side] and [back] is refused by
    the input schema of the flow: [generateSingleViewComposite] throws
    before any upstream attempt, and nothing is recorded. *)
Theorem invalid_view_angle_refused
  (upstream : Upstream) (input : SingleViewComposite.SingleViewCompositeInput) (w : World) :
  Genkit.z_enum ["front"; "side"; "back"] (SingleViewComposite.viewAngle input) = false ->
  exists e,
    SingleViewComposite.generateSingleViewComposite upstream input w = (Throws e, w).
Proof.
  intros H. exists Genkit.schemaError. apply single_view_refused.
  unfold SingleViewComposite.SingleViewCompositeInputSchema. rewrite H.
  apply andb_false_r.
Qed.

(** X2.  Both retry wrappers make between 1 and 3 upstream attempts, wait
    3000 ms once per attempt but the last, and so never wait more than
    6000 ms in one call. *)
Theorem attempts_and_waits_bounded
  (upstream : Upstream)
  (inputS : SingleViewComposite.SingleViewCompositeInput)
  (inputA : GenerateAiModel.GenerateAiModelInput) (w : World) :
  SingleViewComposite.SingleViewCompositeInputSchema inputS = true ->
  (exists sent,
      trace (snd (SingleViewComposite.generateSingleViewComposite upstream inputS w))
      = (trace w ++ sent)%list
      /\ 1 <= generateCount sent <= 3
      /\ sleepTotal sent = 3000 * (generateCount sent - 1)
      /\ sleepTotal sent <= 2 * 3000)
  /\ (exists sent,
        trace (snd (GenerateAiModel.generateAiModel upstream inputA w))
        = (trace w ++ sent)%list
        /\ 1 <= generateCount sent <= 3
        /\ sleepTotal sent = 3000 * (generateCount sent - 1)
        /\ sleepTotal sent <= 2 * 3000).
Proof.
  intros Hin. split.
  - destruct (single_view_requests upstream inputS w Hin) as (k & Hk & ->).
    destruct (attemptsTrace_counts (SingleViewComposite.generateOptions inputS) k)
      as (Hg & Hs & _).
    eexists. split; [reflexivity|]. rewrite Hg, Hs. lia.
  - destruct (ai_model_requests upstream inputA w) as (k & Hk & ->).
    destruct (attemptsTrace_counts (GenerateAiModel.generateOptions inputA) k)
      as (Hg & Hs & _).
    eexists. split; [reflexivity|]. rewrite Hg, Hs. lia.
Qed.

Lemma invalid_view_angle_refused_run :
  exists e,
    SingleViewComposite.generateSingleViewComposite Sample.alwaysImage
      Scenario.diagonalInput world0 = (Throws e, world0).
Proof.
  apply (invalid_view_angle_refused Sample.alwaysImage Scenario.diagonalInput world0).
  reflexivity.
Defined.

Lemma attempts_and_waits_bounded_run :
  (exists sent,
      trace (snd (SingleViewComposite.generateSingleViewComposite Sample.alwaysOverloaded
                    Sample.input world0))
      = (trace world0 ++ sent)%list
      /\ 1 <= generateCount sent <= 3
      /\ sleepTotal sent = 3000 * (generateCount sent - 1)
      /\ sleepTotal sent <= 2 * 3000)
  /\ (exists sent,
        trace (snd (GenerateAiModel.generateAiModel Sample.alwaysOverloaded
                      Sample.modelInput world0))
        = (trace world0 ++ sent)%list
        /\ 1 <= generateCount sent <= 3
        /\ sleepTotal sent = 3000 * (generateCount sent - 1)
        /\ sleepTotal sent <= 2 * 3000).
Proof.
  apply (attempts_and_waits_bounded Sample.alwaysOverloaded Sample.input
           Sample.modelInput world0).
  reflexivity.
Defined.

(** X3.  The overload test is a substring test: an [Error] whose message
    contains the characters 503 anywhere, whatever stands before and after
    them, makes the first attempt of [generateSingleViewComposite] be
    followed by the wait of 3000 ms and a second attempt. *)
Theorem any_503_substring_is_retried
  (upstream : Upstream) (input : SingleViewComposite.SingleViewCompositeInput) (w : World)
  (before after : string) :
  SingleViewComposite.SingleViewCompositeInputSchema input = true ->
  upstream (calls w + 1) (SingleViewComposite.generateOptions input)
  = Rejected (Js.ErrorObj (before ++ "503" ++ after)) ->
  exists sent,
    trace (snd (SingleViewComposite.generateSingleViewComposite upstream input w))
    = (trace w
       ++ EvGenerate (SingleViewComposite.generateOptions input)
          :: EvSleep 3000
          :: EvGenerate (SingleViewComposite.generateOptions input) :: sent)%list.
Proof.
  intros Hin H1.
  assert (Js.is503 (Js.ErrorObj (before ++ "503" ++ after)) = true) as H503.
  { cbn [Js.is503]. apply includes_spec. now exists before, after. }
  destruct (deciding_attempt upstream (SingleViewComposite.generateOptions input) (calls w))
    as (k & Hk & Hpre & Hdec).
  rewrite SingleViewFacts.sv_flow_is_loop by exact Hin.
  unfold SingleViewComposite.retryLoop.
  rewrite (SingleViewFacts.sv_loop_decided upstream input k w) by assumption.
  destruct k as [|k].
  - rewrite H1 in Hdec. destruct Hdec as [Hno | Hlast]; [congruence | discriminate].
  - destruct (attemptsTrace_head (SingleViewComposite.generateOptions input) k)
      as [sent Hsent].
    exists sent. cbn [snd trace advance].
    change (attemptsTrace (SingleViewComposite.generateOptions input) (S (S k)))
      with (EvGenerate (SingleViewComposite.generateOptions input)
            :: EvSleep 3000
            :: attemptsTrace (SingleViewComposite.generateOptions input) (S k)).
    now rewrite Hsent.
Qed.

Lemma any_503_substring_is_retried_run :
  exists sent,
    trace (snd (SingleViewComposite.generateSingleViewComposite Scenario.sizeErrorOnce
                  Sample.input world0))
    = (trace world0
       ++ EvGenerate (SingleViewComposite.generateOptions Sample.input)
          :: EvSleep 3000
          :: EvGenerate (SingleViewComposite.generateOptions Sample.input) :: sent)%list.
Proof.
  apply (any_503_substring_is_retried Scenario.sizeErrorOnce Sample.input world0
           "Image of 1" " pixels is too small.").
  - reflexivity.
  - reflexivity.
Defined.

(** X4.  Only instances of [Error] are ever retried: a rejection with any
    other value, [undefined] or a value whose text contains 503 included,
    ends [generateSingleViewComposite] at once with that value thrown, no
    wait and no attempt after it. *)
Theorem non_error_rejection_not_retried
  (upstream : Upstream) (input : SingleViewComposite.SingleViewCompositeInput) (w : World)
  (k : nat) (e : Js.Thrown) :
  SingleViewComposite.SingleViewCompositeInputSchema input = true ->
  k < 3 ->
  (forall j, 1 <= j <= k ->
     overloaded (upstream (calls w + j) (SingleViewComposite.generateOptions input))) ->
  upstream (calls w + S k) (SingleViewComposite.generateOptions input) = Rejected e ->
  (e = Js.Undefined \/ exists repr, e = Js.NonError repr) ->
  SingleViewComposite.generateSingleViewComposite upstream input w
  = (Throws e,
     {| calls := calls w + S k;
        trace := trace w ++ attemptsTrace (SingleViewComposite.generateOptions input) (S k);
        page := page w |}).
Proof.
  intros Hin Hk Hpre Hrej Hkind.
  rewrite SingleViewFacts.sv_flow_is_loop by exact Hin.
  apply (SingleViewFacts.sv_loop_throws upstream input k w e);
    [exact Hk | exact Hpre | exact Hrej | left].
  destruct Hkind as [-> | [repr ->]]; reflexivity.
Qed.

Lemma non_error_rejection_not_retried_run :
  SingleViewComposite.generateSingleViewComposite Scenario.alwaysThrownString
    Sample.input world0
  = (Throws (Js.NonError "503 Service Unavailable"),
     {| calls := calls world0 + 1;
        trace := trace world0
                 ++ attemptsTrace (SingleViewComposite.generateOptions Sample.input) 1;
        page := page world0 |}).
Proof.
  apply (non_error_rejection_not_retried Scenario.alwaysThrownString Sample.input world0 0
           (Js.NonError "503 Service Unavailable")).
  - reflexivity.
  - lia.
  - intros j Hj. lia.
  - reflexivity.
  - right. eexists. reflexivity.
Defined.

(** X5.  [generateMultiAngleComposite] is all or nothing, in both
    directions: it returns views only if its three prompts were fulfilled,
    and whatever it throws is the reason with which one of its three prompts
    rejected. *)
Theorem multi_angle_all_or_nothing
  (prompts : MultiAngleComposite.PromptUpstream)
  (input : MultiAngleComposite.MultiAngleCompositeInput) (w : World) :
  (forall views,
      fst (MultiAngleComposite.generateMultiAngleComposite prompts input w) = Normal views ->
      exists frontResult sideResult backResult,
        outcome (prompts "frontViewCompositePrompt" input) = Fulfilled frontResult
        /\ outcome (prompts "sideViewCompositePrompt" input) = Fulfilled sideResult
        /\ outcome (prompts "backViewCompositePrompt" input) = Fulfilled backResult)
  /\ (forall e,
        fst (MultiAngleComposite.generateMultiAngleComposite prompts input w) = Throws e ->
        exists p,
          In p [ prompts "frontViewCompositePrompt" input;
                 prompts "sideViewCompositePrompt" input;
                 prompts "backViewCompositePrompt" input ]
          /\ outcome p = Rejected e).
Proof.
  rewrite multi_angle_result. cbn [fst].
  destruct (MultiAngleComposite.firstRejection
              [ prompts "frontViewCompositePrompt" input;
                prompts "sideViewCompositePrompt" input;
                prompts "backViewCompositePrompt" input ]) as [[t e0]|] eqn:E.
  - split; [discriminate|].
    intros e He. injection He as <-.
    destruct (firstRejection_some _ t e0 E) as [(q & Hq & Hqe & _) _].
    now exists q.
  - pose proof (firstRejection_none _ E) as Hall.
    destruct (Hall (prompts "frontViewCompositePrompt" input)) as [rf Hf]; [now left|].
    destruct (Hall (prompts "sideViewCompositePrompt" input)) as [rs Hs];
      [right; now left|].
    destruct (Hall (prompts "backViewCompositePrompt" input)) as [rb Hb];
      [right; right; now left|].
    split.
    + intros views _. now exists rf, rs, rb.
    + cbn [MultiAngleComposite.fulfilledValues]. rewrite Hf, Hs, Hb. discriminate.
Qed.

(** * The page *)

Lemma truthy_nonempty (s : string) : Js.truthy (Some s) = true <-> s <> "".
Proof. destruct s; cbn; split; congruence. Qed.

Lemma truthy_some (v : option string) :
  Js.truthy v = true <-> exists s, v = Some s /\ s <> "".
Proof.
  destruct v as [[|a s]|]; cbn [Js.truthy]; split.
  - discriminate.
  - intros (s & [= <-] & H). contradiction.
  - intros _. eexists. split; [reflexivity | discriminate].
  - reflexivity.
  - discriminate.
  - intros (s & H & _). discriminate.
Qed.

Lemma passesGuard_some (p : Client.PageState) :
  passesGuard p = true <->
  exists clothingImage modelImage clothingAnalysis,
    Client.clothingImage p = Some clothingImage /\ clothingImage <> ""
    /\ Client.modelImage p = Some modelImage /\ modelImage <> ""
    /\ Client.clothingAnalysis p = Some clothingAnalysis.
Proof.
  unfold passesGuard. rewrite !andb_true_iff, !truthy_some. split.
  - intros [[(ci & Hci & Hci') (mi & Hmi & Hmi')] Han].
    destruct (Client.clothingAnalysis p) as [an|]; [|discriminate].
    now exists ci, mi, an.
  - intros (ci & mi & an & Hci & Hci' & Hmi & Hmi' & Han).
    repeat split; [now exists ci | now exists mi | now rewrite Han].
Qed.

(** What a call of [generateSingleViewComposite] leaves behind, whatever
    its input: at most 3 upstream attempts, no notification, the page as it
    was. *)
Lemma single_view_frame
  (upstream : Upstream) (input : SingleViewComposite.SingleViewCompositeInput) (w : World) :
  exists c n evs,
    SingleViewComposite.generateSingleViewComposite upstream input w = (c, advance w n evs)
    /\ n <= 3 /\ generateCount evs = n /\ toasts evs = [].
Proof.
  destruct (SingleViewComposite.SingleViewCompositeInputSchema input) eqn:Hin.
  - destruct (deciding_attempt upstream (SingleViewComposite.generateOptions input) (calls w))
      as (k & Hk & Hpre & Hdec).
    destruct (attemptsTrace_counts (SingleViewComposite.generateOptions input) k)
      as (Hg & _ & Ht).
    eexists; exists (S k); eexists. split; [|split; [lia | split; eassumption]].
    rewrite SingleViewFacts.sv_flow_is_loop by exact Hin.
    unfold SingleViewComposite.retryLoop.
    now rewrite (SingleViewFacts.sv_loop_decided upstream input k w).
  - exists (Throws Genkit.schemaError), 0, [].
    rewrite advance_0. split; [now apply single_view_refused | repeat split; lia].
Qed.

Lemma ai_model_frame
  (upstream : Upstream) (input : GenerateAiModel.GenerateAiModelInput) (w : World) :
  exists c n evs,
    GenerateAiModel.generateAiModel upstream input w = (c, advance w n evs)
    /\ 1 <= n <= 3 /\ generateCount evs = n /\ toasts evs = [].
Proof.
  destruct (deciding_attempt upstream (GenerateAiModel.generateOptions input) (calls w))
    as (k & Hk & Hpre & Hdec).
  destruct (attemptsTrace_counts (GenerateAiModel.generateOptions input) k)
    as (Hg & _ & Ht).
  eexists; exists (S k); eexists. split; [|split; [lia | split; eassumption]].
  rewrite AiModelFacts.ai_flow_is_loop. unfold GenerateAiModel.retryLoop.
  now rewrite (AiModelFacts.ai_loop_decided upstream input k w).
Qed.

Section TryOnRun.

Import Client.

Variable upstream : Upstream.

(** [handleCreateTryOn] past its guard, from what the flow returns. *)
Lemma handleCreateTryOn_after_guard w ci mi an c n evs :
  clothingImage (page w) = Some ci -> ci <> "" ->
  modelImage (page w) = Some mi -> mi <> "" ->
  clothingAnalysis (page w) = Some an ->
  let loading := Page.withCompositing true (loadingStates (page w)) in
  let started := onPage w (withCells (page w) (Some ci) (Some an) (Some mi) None loading) in
  SingleViewComposite.generateSingleViewComposite upstream (tryOnInput (page w) ci mi an)
    started = (c, advance started n evs) ->
  Page.handleCreateTryOn upstream w
  = (Normal tt,
     match c with
     | Normal {| SingleViewComposite.compositeImage := String a image |} =>
         {| calls := calls w + n;
            trace := trace w ++ evs;
            page := withCells (page w) (Some ci) (Some an) (Some mi) (Some (String a image))
                      (Page.withCompositing false loading) |}
     | _ =>
         {| calls := calls w + n;
            trace := (trace w ++ evs) ++ [EvToast tryOnFailedToast];
            page := withCells (page w) (Some ci) (Some an) (Some mi) None
                      (Page.withCompositing false loading) |}
     end).
Proof.
  intros Hci Hci' Hmi Hmi' Han loading started Hflow.
  unfold Page.handleCreateTryOn. unfold bind at 1. unfold Page.getPage.
  rewrite Hci, Hmi, Han.
  apply truthy_nonempty in Hci', Hmi'. rewrite Hci', Hmi'.
  cbn [negb orb Page.truthyObject].
  unfold bind at 1. unfold Page.setLoadingStates at 1, Page.setPage at 1.
  unfold bind at 1. unfold Page.setCompositeImage at 1, Page.setPage at 1.
  cbn [calls trace page clothingImage modelImage clothingAnalysis compositeImage
       loadingStates modelForm].
  unfold try_finally, try_catch. unfold bind at 1.
  fold (tryOnInput (page w) ci mi an).
  subst started loading. unfold onPage, withCells in Hflow.
  rewrite Hci, Hmi, Han, Hflow.
  destruct c as [[[|a image]]|e]; reflexivity.
Qed.

End TryOnRun.

Section ModelRun.

Import Client.

Variable upstream : Upstream.

(** [handleGenerateModel], from what the flow returns. *)
Lemma handleGenerateModel_run values w c n evs :
  let loading := TryFitPage.withGeneratingModel true (loadingStates (page w)) in
  let started :=
    onPage w (withCells (page w) (clothingImage (page w)) (clothingAnalysis (page w))
                None None loading) in
  GenerateAiModel.generateAiModel upstream
    {| GenerateAiModel.description := modelDescriptionOf values |} started
  = (c, advance started n evs) ->
  TryFitPage.handleGenerateModel upstream values w
  = (Normal tt,
     match c with
     | Normal result =>
         {| calls := calls w + n;
            trace := trace w ++ evs;
            page := withCells (page w) (clothingImage (page w)) (clothingAnalysis (page w))
                      (Some (GenerateAiModel.modelImage result)) None
                      (TryFitPage.withGeneratingModel false loading) |}
     | Throws _ =>
         {| calls := calls w + n;
            trace := (trace w ++ evs) ++ [EvToast modelFailedToast];
            page := withCells (page w) (clothingImage (page w)) (clothingAnalysis (page w))
                      None None (TryFitPage.withGeneratingModel false loading) |}
     end).
Proof.
  intros loading started Hflow.
  unfold TryFitPage.handleGenerateModel.
  unfold bind at 1. unfold Page.setLoadingStates at 1, Page.setPage at 1.
  unfold bind at 1. unfold TryFitPage.setModelImage at 1, Page.setPage at 1.
  unfold bind at 1. unfold Page.setCompositeImage at 1, Page.setPage at 1.
  cbn [calls trace page clothingImage modelImage clothingAnalysis compositeImage
       loadingStates modelForm].
  unfold try_finally, try_catch. unfold bind at 1.
  fold (modelDescriptionOf values).
  subst started loading. unfold onPage, withCells in Hflow. rewrite Hflow.
  destruct c as [result|e]; reflexivity.
Qed.

End ModelRun.

Section FileRun.

Import Client.

Variable File : Type.
Variable toBase64 : File -> Settled string.
Variable analyzeClothingImage : string -> Settled AnalyzeClothingImageOutput.

Lemma handleFileChange_no_file files w :
  TryFitPage.firstFile File files = None ->
  TryFitPage.handleFileChange File toBase64 analyzeClothingImage files w = (Normal tt, w).
Proof.
  intros H. unfold TryFitPage.handleFileChange. now rewrite H.
Qed.

(** The upload is given up: the file cannot be read, or its analysis
    fails. *)
Lemma handleFileChange_failed files file w :
  TryFitPage.firstFile File files = Some file ->
  (exists e, toBase64 file = Rejected e)
  \/ (exists dataUri e,
        toBase64 file = Fulfilled dataUri /\ analyzeClothingImage dataUri = Rejected e) ->
  TryFitPage.handleFileChange File toBase64 analyzeClothingImage files w
  = (Normal tt,
     {| calls := calls w;
        trace := trace w ++ [EvToast analysisFailedToast];
        page := withCells (page w) None None (modelImage (page w)) None
                  (TryFitPage.withAnalyzing false
                     (TryFitPage.withAnalyzing true (loadingStates (page w)))) |}).
Proof.
  intros Hfile Hfail. unfold TryFitPage.handleFileChange. rewrite Hfile.
  unfold try_finally, try_catch, bind, TryFitPage.await.
  destruct Hfail as [[e He] | (dataUri & e & Hd & He)].
  - rewrite He. reflexivity.
  - rewrite Hd. cbn. rewrite He. reflexivity.
Qed.

(** The upload goes through. *)
Lemma handleFileChange_analysed files file dataUri analysisResult w :
  TryFitPage.firstFile File files = Some file ->
  toBase64 file = Fulfilled dataUri ->
  analyzeClothingImage dataUri = Fulfilled analysisResult ->
  TryFitPage.handleFileChange File toBase64 analyzeClothingImage files w
  = (Normal tt,
     {| calls := calls w;
        trace := trace w;
        page :=
          {| clothingImage := Some dataUri;
             clothingAnalysis := Some analysisResult;
             modelImage := modelImage (page w);
             compositeImage := None;
             loadingStates :=
               TryFitPage.withAnalyzing false
                 (TryFitPage.withAnalyzing true (loadingStates (page w)));
             modelForm :=
               if String.eqb (suggestedGender analysisResult) "male"
                  || String.eqb (suggestedGender analysisResult) "female"
               then {| gender := suggestedGender analysisResult;
                       pose := pose (modelForm (page w));
                       bodyType := bodyType (modelForm (page w));
                       skinTone := skinTone (modelForm (page w));
                       viewAngle := viewAngle (modelForm (page w)) |}
               else modelForm (page w) |} |}).
Proof.
  intros Hfile Hd Ha. unfold TryFitPage.handleFileChange. rewrite Hfile.
  unfold try_finally, try_catch, bind, TryFitPage.await.
  rewrite Hd. cbn. rewrite Ha. cbn.
  destruct (String.eqb (suggestedGender analysisResult) "male"
            || String.eqb (suggestedGender analysisResult) "female"); reflexivity.
Qed.

End FileRun.

Lemma passesGuard_false (p : Client.PageState) :
  passesGuard p = false ->
  negb (Js.truthy (Client.clothingImage p))
  || negb (Js.truthy (Client.modelImage p))
  || negb (Page.truthyObject (Client.clothingAnalysis p)) = true.
Proof.
  unfold passesGuard.
  destruct (Js.truthy (Client.clothingImage p)), (Js.truthy (Client.modelImage p)),
    (Page.truthyObject (Client.clothingAnalysis p)); cbn; congruence.
Qed.

(** X6.  [handleCreateTryOn] never throws and makes at most 3 upstream
    attempts.  It leaves the clothing image, its analysis, the model image,
    the form and the two other loading flags as they were.  When its guard
    refuses the page, the page stays as it is and the only event is the
    "Missing Images" notification.  Otherwise it ends with the compositing
    flag down and with one of two pages: a composite image that is not
    empty and no notification, or no composite image and the one
    notification "Virtual Try-On Failed". *)
Theorem try_on_outcome (upstream : Upstream) (w : World) :
  exists w' evs,
    Page.handleCreateTryOn upstream w = (Normal tt, w')
    /\ trace w' = (trace w ++ evs)%list
    /\ calls w' = calls w + generateCount evs
    /\ generateCount evs <= 3
    /\ Client.clothingImage (page w') = Client.clothingImage (page w)
    /\ Client.clothingAnalysis (page w') = Client.clothingAnalysis (page w)
    /\ Client.modelImage (page w') = Client.modelImage (page w)
    /\ Client.modelForm (page w') = Client.modelForm (page w)
    /\ Client.analyzing (Client.loadingStates (page w'))
       = Client.analyzing (Client.loadingStates (page w))
    /\ Client.generatingModel (Client.loadingStates (page w'))
       = Client.generatingModel (Client.loadingStates (page w))
    /\ (passesGuard (page w) = false ->
        page w' = page w /\ evs = [EvToast missingImagesToast])
    /\ (passesGuard (page w) = true ->
        Client.compositing (Client.loadingStates (page w')) = false
        /\ ((exists image,
                image <> "" /\ Client.compositeImage (page w') = Some image
                /\ toasts evs = [])
            \/ (Client.compositeImage (page w') = None
                /\ toasts evs = [tryOnFailedToast]))).
Proof.
  destruct (passesGuard (page w)) eqn:G.
  - apply passesGuard_some in G as (ci & mi & an & Hci & Hci' & Hmi & Hmi' & Han).
    destruct (single_view_frame upstream (tryOnInput (page w) ci mi an)
                (onPage w (withCells (page w) (Some ci) (Some an) (Some mi) None
                             (Page.withCompositing true (Client.loadingStates (page w))))))
      as (c & n & evs & Hflow & Hn & Hcount & Htoasts).
    rewrite (handleCreateTryOn_after_guard upstream w ci mi an c n evs
               Hci Hci' Hmi Hmi' Han Hflow).
    assert (forall v,
               (c = Throws v \/ c = Normal {| SingleViewComposite.compositeImage := "" |}) ->
               toasts (evs ++ [EvToast tryOnFailedToast]) = [tryOnFailedToast]
               /\ generateCount (evs ++ [EvToast tryOnFailedToast]) = n) as Hfail.
    { intros _ _. now rewrite generateCount_app, toasts_app, Htoasts, Hcount, Nat.add_0_r. }
    destruct c as [[[|a image]]|e].
    + destruct (Hfail Js.Undefined (or_intror eq_refl)) as [Ht Hg].
      eexists; exists (evs ++ [EvToast tryOnFailedToast])%list.
      split; [reflexivity|]. cbn. rewrite Ht, Hg, app_assoc.
      repeat split; try congruence; try lia.
      right. now split.
    + eexists; exists evs.
      split; [reflexivity|]. cbn. rewrite Htoasts, Hcount.
      repeat split; try congruence; try lia.
      left. exists (String a image). now repeat split.
    + destruct (Hfail e (or_introl eq_refl)) as [Ht Hg].
      eexists; exists (evs ++ [EvToast tryOnFailedToast])%list.
      split; [reflexivity|]. cbn. rewrite Ht, Hg, app_assoc.
      repeat split; try congruence; try lia.
      right. now split.
  - rewrite (handleCreateTryOn_guard upstream w (passesGuard_false _ G)).
    eexists; exists [EvToast missingImagesToast].
    split; [reflexivity|]. cbn.
    repeat split; try congruence; lia.
Qed.

(** X9.  [handleGenerateModel] never throws and makes between 1 and 3
    upstream attempts.  It leaves the clothing image, its analysis, the form
    and the two other loading flags as they were, ends with the
    generating-model flag down, and always discards the composite image.
    The model image it ends with is the one [generateAiModel] returned for
    the description built from the submitted values, with no notification;
    when [generateAiModel] throws it ends with no model image and the one
    notification "Model Generation Failed".  In terms of the upstream: the
    image stored is the url of the media of the response that decides the
    call, and a rejection or a response without media gives the
    notification. *)
Theorem generate_model_outcome
  (upstream : Upstream) (values : Client.ModelFormValues) (w : World) :
  let input :=
    {| GenerateAiModel.description :=
         "A full-body studio portrait of a " ++ Client.gender values ++ " model with "
         ++ Client.skinTone values ++ " and an " ++ Client.bodyType values
         ++ ". The model is " ++ Client.pose values ++ ". The background is plain white." |} in
  let started :=
    {| calls := calls w;
       trace := trace w;
       page := {| Client.clothingImage := Client.clothingImage (page w);
                  Client.clothingAnalysis := Client.clothingAnalysis (page w);
                  Client.modelImage := None;
                  Client.compositeImage := None;
                  Client.loadingStates :=
                    {| Client.analyzing := Client.analyzing (Client.loadingStates (page w));
                       Client.generatingModel := true;
                       Client.compositing :=
                         Client.compositing (Client.loadingStates (page w)) |};
                  Client.modelForm := Client.modelForm (page w) |} |} in
  exists w' evs,
    TryFitPage.handleGenerateModel upstream values w = (Normal tt, w')
    /\ trace w' = (trace w ++ evs)%list
    /\ calls w' = calls w + generateCount evs
    /\ 1 <= generateCount evs <= 3
    /\ Client.clothingImage (page w') = Client.clothingImage (page w)
    /\ Client.clothingAnalysis (page w') = Client.clothingAnalysis (page w)
    /\ Client.modelForm (page w') = Client.modelForm (page w)
    /\ Client.analyzing (Client.loadingStates (page w'))
       = Client.analyzing (Client.loadingStates (page w))
    /\ Client.compositing (Client.loadingStates (page w'))
       = Client.compositing (Client.loadingStates (page w))
    /\ Client.generatingModel (Client.loadingStates (page w')) = false
    /\ Client.compositeImage (page w') = None
    /\ match fst (GenerateAiModel.generateAiModel upstream input started) with
       | Normal result =>
           Client.modelImage (page w') = Some (GenerateAiModel.modelImage result)
           /\ toasts evs = []
       | Throws _ =>
           Client.modelImage (page w') = None /\ toasts evs = [modelFailedToast]
       end
    /\ exists k,
         k < 3
         /\ generateCount evs = S k
         /\ (forall j, 1 <= j <= k ->
               overloaded (upstream (calls w + j) (GenerateAiModel.generateOptions input)))
         /\ match upstream (calls w + S k) (GenerateAiModel.generateOptions input) with
            | Fulfilled {| media := Some image |} =>
                Client.modelImage (page w') = Some (url image) /\ toasts evs = []
            | Fulfilled {| media := None |} =>
                Client.modelImage (page w') = None /\ toasts evs = [modelFailedToast]
            | Rejected e =>
                (Js.is503 e = false \/ S k = 3)
                /\ Client.modelImage (page w') = None /\ toasts evs = [modelFailedToast]
            end.
Proof.
  intros input started.
  destruct (deciding_attempt upstream (GenerateAiModel.generateOptions input) (calls w))
    as (k & Hk & Hpre & Hdec).
  destruct (attemptsTrace_counts (GenerateAiModel.generateOptions input) k) as (Hg & _ & Ht).
  assert (GenerateAiModel.generateAiModel upstream input started
          = (match upstream (calls w + S k) (GenerateAiModel.generateOptions input) with
             | Fulfilled response =>
                 match media response with
                 | Some m => Normal {| GenerateAiModel.modelImage := url m |}
                 | None => Throws Js.nullDeref
                 end
             | Rejected e => Throws e
             end,
             advance started (S k)
               (attemptsTrace (GenerateAiModel.generateOptions input) (S k)))) as Hflow.
  { rewrite AiModelFacts.ai_flow_is_loop. unfold GenerateAiModel.retryLoop.
    now rewrite (AiModelFacts.ai_loop_decided upstream input k started). }
  rewrite (handleGenerateModel_run upstream values w _ _ _ Hflow).
  rewrite Hflow. cbn [fst].
  assert (toasts (attemptsTrace (GenerateAiModel.generateOptions input) (S k)
                  ++ [EvToast modelFailedToast]) = [modelFailedToast]
          /\ generateCount (attemptsTrace (GenerateAiModel.generateOptions input) (S k)
                            ++ [EvToast modelFailedToast]) = S k)
    as [Ht' Hg'].
  { now rewrite generateCount_app, toasts_app, Ht, Hg, Nat.add_0_r. }
  destruct (upstream (calls w + S k) (GenerateAiModel.generateOptions input))
    as [[[image|]]|e] eqn:E; cbn [media].
  - eexists; exists (attemptsTrace (GenerateAiModel.generateOptions input) (S k)).
    split; [reflexivity|].
    cbn [trace calls page withCells GenerateAiModel.modelImage
         Client.clothingImage Client.clothingAnalysis Client.modelImage
         Client.compositeImage Client.loadingStates Client.modelForm
         TryFitPage.withGeneratingModel Client.analyzing Client.generatingModel
         Client.compositing].
    rewrite Ht, Hg.
    do 10 (split; [first [reflexivity | lia]|]).
    split; [now split|].
    exists k. split; [exact Hk|]. split; [reflexivity|]. split; [exact Hpre|].
    rewrite E. now split.
  - eexists; exists (attemptsTrace (GenerateAiModel.generateOptions input) (S k)
                     ++ [EvToast modelFailedToast])%list.
    split; [reflexivity|].
    cbn [trace calls page withCells GenerateAiModel.modelImage
         Client.clothingImage Client.clothingAnalysis Client.modelImage
         Client.compositeImage Client.loadingStates Client.modelForm
         TryFitPage.withGeneratingModel Client.analyzing Client.generatingModel
         Client.compositing].
    rewrite Ht', Hg', app_assoc.
    do 10 (split; [first [reflexivity | lia]|]).
    split; [now split|].
    exists k. split; [exact Hk|]. split; [reflexivity|]. split; [exact Hpre|].
    rewrite E. now split.
  - eexists; exists (attemptsTrace (GenerateAiModel.generateOptions input) (S k)
                     ++ [EvToast modelFailedToast])%list.
    split; [reflexivity|].
    cbn [trace calls page withCells GenerateAiModel.modelImage
         Client.clothingImage Client.clothingAnalysis Client.modelImage
         Client.compositeImage Client.loadingStates Client.modelForm
         TryFitPage.withGeneratingModel Client.analyzing Client.generatingModel
         Client.compositing].
    rewrite Ht', Hg', app_assoc.
    do 10 (split; [first [reflexivity | lia]|]).
    split; [now split|].
    exists k. split; [exact Hk|]. split; [reflexivity|]. split; [exact Hpre|].
    rewrite E. now repeat split.
Qed.

Lemma tryOnInput_parses (p : Client.PageState) ci mi an :
  Genkit.z_enum ["front"; "side"; "back"] (Client.viewAngle (Client.modelForm p)) = true ->
  SingleViewComposite.SingleViewCompositeInputSchema (tryOnInput p ci mi an) = true.
Proof.
  intros H. unfold SingleViewComposite.SingleViewCompositeInputSchema, tryOnInput.
  cbn [SingleViewComposite.viewAngle]. now rewrite H.
Qed.

(** X8.  The caller checks the image for emptiness: when the flow
    succeeds without an image (no media in the response, or a media with an
    empty url), [handleCreateTryOn] treats the empty result as a failure.
    It ends with no composite image, the compositing flag down and the
    notification "Virtual Try-On Failed" as its last event. *)
Theorem try_on_without_image_reports_failure
  (upstream : Upstream) (w : World) (k : nat) (response : GenerateResponse) :
  passesGuard (page w) = true ->
  Genkit.z_enum ["front"; "side"; "back"]
    (Client.viewAngle (Client.modelForm (page w))) = true ->
  k < 3 ->
  (forall opts j, 1 <= j <= k -> overloaded (upstream (calls w + j) opts)) ->
  (forall opts, upstream (calls w + S k) opts = Fulfilled response) ->
  match media response with
  | Some m => url m = ""
  | None => True
  end ->
  exists w' evs,
    Page.handleCreateTryOn upstream w = (Normal tt, w')
    /\ trace w' = (trace w ++ evs ++ [EvToast tryOnFailedToast])%list
    /\ toasts evs = []
    /\ generateCount evs = S k
    /\ calls w' = calls w + S k
    /\ Client.compositeImage (page w') = None
    /\ Client.compositing (Client.loadingStates (page w')) = false.
Proof.
  intros G Hangle Hk Hpre Hok Hempty.
  apply passesGuard_some in G as (ci & mi & an & Hci & Hci' & Hmi & Hmi' & Han).
  pose (started := onPage w (withCells (page w) (Some ci) (Some an) (Some mi) None
                               (Page.withCompositing true (Client.loadingStates (page w))))).
  pose (opts := SingleViewComposite.generateOptions (tryOnInput (page w) ci mi an)).
  assert (SingleViewComposite.generateSingleViewComposite upstream
            (tryOnInput (page w) ci mi an) started
          = (Normal {| SingleViewComposite.compositeImage := "" |},
             advance started (S k) (attemptsTrace opts (S k)))) as Hflow.
  { rewrite SingleViewFacts.sv_flow_is_loop by now apply tryOnInput_parses.
    unfold SingleViewComposite.retryLoop.
    rewrite (SingleViewFacts.sv_loop_returns upstream _ k started response);
      [ | exact Hk | intros j Hj; apply Hpre, Hj | apply Hok ].
    destruct (media response) as [[u]|]; cbn in Hempty |- *; [now subst u | reflexivity]. }
  rewrite (handleCreateTryOn_after_guard upstream w ci mi an _ _ _
             Hci Hci' Hmi Hmi' Han Hflow).
  destruct (attemptsTrace_counts opts k) as (Hg & _ & Ht).
  eexists; exists (attemptsTrace opts (S k)).
  split; [reflexivity|]. cbn [trace calls page withCells Client.compositeImage
                              Client.loadingStates Page.withCompositing Client.compositing].
  rewrite <- app_assoc. now repeat split.
Qed.

(** X10.  [generateAiModel] throws on a success without media, and
    [handleGenerateModel] catches it: the handler ends with no model image,
    the generating-model flag down and the notification "Model Generation
    Failed" as its last event. *)
Theorem generate_model_without_image_reports_failure
  (upstream : Upstream) (values : Client.ModelFormValues) (w : World)
  (k : nat) (response : GenerateResponse) :
  k < 3 ->
  (forall opts j, 1 <= j <= k -> overloaded (upstream (calls w + j) opts)) ->
  (forall opts, upstream (calls w + S k) opts = Fulfilled response) ->
  media response = None ->
  exists w' evs,
    TryFitPage.handleGenerateModel upstream values w = (Normal tt, w')
    /\ trace w' = (trace w ++ evs ++ [EvToast modelFailedToast])%list
    /\ toasts evs = []
    /\ generateCount evs = S k
    /\ calls w' = calls w + S k
    /\ Client.modelImage (page w') = None
    /\ Client.generatingModel (Client.loadingStates (page w')) = false.
Proof.
  intros Hk Hpre Hok Hnone.
  pose (started := onPage w (withCells (page w) (Client.clothingImage (page w))
                               (Client.clothingAnalysis (page w)) None None
                               (TryFitPage.withGeneratingModel true
                                  (Client.loadingStates (page w))))).
  pose (input := {| GenerateAiModel.description := modelDescriptionOf values |}).
  pose (opts := GenerateAiModel.generateOptions input).
  assert (GenerateAiModel.generateAiModel upstream input started
          = (Throws Js.nullDeref, advance started (S k) (attemptsTrace opts (S k)))) as Hflow.
  { rewrite AiModelFacts.ai_flow_is_loop. unfold GenerateAiModel.retryLoop.
    apply (AiModelFacts.ai_loop_null_media upstream input k started response);
      [exact Hk | intros j Hj; apply Hpre, Hj | apply Hok | exact Hnone]. }
  rewrite (handleGenerateModel_run upstream values w _ _ _ Hflow).
  destruct (attemptsTrace_counts opts k) as (Hg & _ & Ht).
  eexists; exists (attemptsTrace opts (S k)).
  split; [reflexivity|]. cbn [trace calls page withCells Client.modelImage
                              Client.loadingStates TryFitPage.withGeneratingModel
                              Client.generatingModel].
  rewrite <- app_assoc. now repeat split.
Qed.

(** X11.  Unlike [handleCreateTryOn], [handleGenerateModel] does not check
    the image it gets: when the upstream succeeds with a media whose url is
    empty, the handler stores the empty string as the model image and
    raises no notification; the guard of [handleCreateTryOn] then refuses
    the page. *)
Theorem generate_model_stores_empty_image
  (upstream : Upstream) (values : Client.ModelFormValues) (w : World)
  (k : nat) (response : GenerateResponse) :
  k < 3 ->
  (forall opts j, 1 <= j <= k -> overloaded (upstream (calls w + j) opts)) ->
  (forall opts, upstream (calls w + S k) opts = Fulfilled response) ->
  media response = Some {| url := "" |} ->
  exists w' evs,
    TryFitPage.handleGenerateModel upstream values w = (Normal tt, w')
    /\ trace w' = (trace w ++ evs)%list
    /\ toasts evs = []
    /\ Client.modelImage (page w') = Some ""
    /\ passesGuard (page w') = false.
Proof.
  intros Hk Hpre Hok Hmedia.
  pose (started := onPage w (withCells (page w) (Client.clothingImage (page w))
                               (Client.clothingAnalysis (page w)) None None
                               (TryFitPage.withGeneratingModel true
                                  (Client.loadingStates (page w))))).
  pose (input := {| GenerateAiModel.description := modelDescriptionOf values |}).
  pose (opts := GenerateAiModel.generateOptions input).
  assert (GenerateAiModel.generateAiModel upstream input started
          = (Normal {| GenerateAiModel.modelImage := "" |},
             advance started (S k) (attemptsTrace opts (S k)))) as Hflow.
  { rewrite AiModelFacts.ai_flow_is_loop. unfold GenerateAiModel.retryLoop.
    apply (AiModelFacts.ai_loop_returns upstream input k started response {| url := "" |});
      [exact Hk | intros j Hj; apply Hpre, Hj | apply Hok | exact Hmedia]. }
  rewrite (handleGenerateModel_run upstream values w _ _ _ Hflow).
  destruct (attemptsTrace_counts opts k) as (Hg & _ & Ht).
  eexists; exists (attemptsTrace opts (S k)).
  split; [reflexivity|]. cbn [trace calls page withCells Client.modelImage
                              GenerateAiModel.modelImage].
  repeat split; [exact Ht|].
  unfold passesGuard, withCells. cbn [Client.modelImage Js.truthy].
  now rewrite andb_false_r.
Qed.

Lemma string_app_assoc (a b c : string) : (a ++ b) ++ c = a ++ b ++ c.
Proof. induction a as [|x a IH]; cbn; [reflexivity | now rewrite IH]. Qed.

Lemma includes_here (x y rest : string) :
  Js.includes (x ++ y ++ rest) (x ++ y) = true.
Proof.
  apply includes_spec. exists "", rest. cbn. now rewrite string_app_assoc.
Qed.

Lemma includes_later (skipped s sub : string) :
  Js.includes s sub = true -> Js.includes (skipped ++ s) sub = true.
Proof.
  rewrite !includes_spec. intros (a & b & ->).
  exists (skipped ++ a), b. now rewrite string_app_assoc.
Qed.

(** X7.  The request that [handleCreateTryOn] sends upstream carries the
    clothing image of the page as its first image and the model image as its
    second, in the order the prompt text refers to them, and its text
    contains the clothing description built from the analysis (the garment
    type and the features joined by commas) and the model description built
    from the form. *)
Theorem try_on_request_payload
  (upstream : Upstream) (w : World) (clothingImage modelImage : string)
  (clothingAnalysis : Client.AnalyzeClothingImageOutput) :
  Client.clothingImage (page w) = Some clothingImage -> clothingImage <> "" ->
  Client.modelImage (page w) = Some modelImage -> modelImage <> "" ->
  Client.clothingAnalysis (page w) = Some clothingAnalysis ->
  Genkit.z_enum ["front"; "side"; "back"]
    (Client.viewAngle (Client.modelForm (page w))) = true ->
  exists text sent,
    trace (snd (Page.handleCreateTryOn upstream w))
    = (trace w
       ++ EvGenerate
            {| model := "googleai/gemini-2.0-flash-preview-image-generation";
               prompt := PromptParts [ MediaPart clothingImage;
                                       MediaPart modelImage;
                                       TextPart text ];
               responseModalities := ["TEXT"; "IMAGE"] |} :: sent)%list
    /\ Js.includes text
         ("Clothing: "
          ++ (Client.garmentType clothingAnalysis ++ " with features: "
              ++ Js.join ", " (Client.clothingFeatures clothingAnalysis))) = true
    /\ Js.includes text
         ("Model: "
          ++ ("A " ++ Client.gender (Client.modelForm (page w)) ++ " model with "
              ++ Client.skinTone (Client.modelForm (page w)) ++ " and an "
              ++ Client.bodyType (Client.modelForm (page w)) ++ ". The model is "
              ++ Client.pose (Client.modelForm (page w)) ++ ".")) = true.
Proof.
  intros Hci Hci' Hmi Hmi' Han Hangle.
  pose (input := tryOnInput (page w) clothingImage modelImage clothingAnalysis).
  pose (started := onPage w (withCells (page w) (Some clothingImage) (Some clothingAnalysis)
                               (Some modelImage) None
                               (Page.withCompositing true (Client.loadingStates (page w))))).
  destruct (single_view_requests upstream input started
              (tryOnInput_parses (page w) _ _ _ Hangle)) as (k & Hk & Hw).
  destruct (SingleViewComposite.generateSingleViewComposite upstream input started)
    as [c w2] eqn:Hflow.
  cbn [snd] in Hw. subst w2.
  rewrite (handleCreateTryOn_after_guard upstream w _ _ _ c _ _ Hci Hci' Hmi Hmi' Han Hflow).
  destruct (attemptsTrace_head (SingleViewComposite.generateOptions input) k) as [sent Hsent].
  exists (SingleViewComposite.promptText input
            (Js.get SingleViewComposite.viewAngleInstructions
                    (SingleViewComposite.viewAngle input))).
  assert (exists sent',
             trace (snd (Normal tt,
                         match c with
                         | Normal {| SingleViewComposite.compositeImage := String a image |} =>
                             {| calls := calls w + S k;
                                trace := trace w
                                         ++ attemptsTrace
                                              (SingleViewComposite.generateOptions input) (S k);
                                page := withCells (page w) (Some clothingImage)
                                          (Some clothingAnalysis) (Some modelImage)
                                          (Some (String a image))
                                          (Page.withCompositing false
                                             (Page.withCompositing true
                                                (Client.loadingStates (page w)))) |}
                         | _ =>
                             {| calls := calls w + S k;
                                trace := (trace w
                                          ++ attemptsTrace
                                               (SingleViewComposite.generateOptions input)
                                               (S k))
                                         ++ [EvToast tryOnFailedToast];
                                page := withCells (page w) (Some clothingImage)
                                          (Some clothingAnalysis) (Some modelImage) None
                                          (Page.withCompositing false
                                             (Page.withCompositing true
                                                (Client.loadingStates (page w)))) |}
                         end))
             = (trace w ++ EvGenerate (SingleViewComposite.generateOptions input) :: sent')%list)
    as [sent' Hsent'].
  { rewrite Hsent.
    destruct c as [[[|a image]]|e]; cbn [snd trace];
      [ exists (sent ++ [EvToast tryOnFailedToast])%list; now rewrite <- app_assoc
      | now exists sent
      | exists (sent ++ [EvToast tryOnFailedToast])%list; now rewrite <- app_assoc ]. }
  exists sent'. split; [exact Hsent'|].
  unfold SingleViewComposite.promptText, input, tryOnInput.
  cbn [SingleViewComposite.clothingDescription SingleViewComposite.modelDescription
       SingleViewComposite.viewAngle].
  split.
  - repeat first [ apply includes_here | apply includes_later ].
  - repeat first [ apply includes_here | apply includes_later ].
Qed.

(** X12.  An upload that fails, because the file cannot be read or because
    its analysis is rejected, never throws: [handleFileChange] raises the
    one notification "Analysis Failed" and leaves the page without clothing
    image, analysis and composite image, the analyzing flag down, the model
    image and the form as they were.  A try-on started on that page is then
    refused by the guard, without any upstream attempt. *)
Theorem failed_upload_blocks_try_on
  (File : Type) (toBase64 : File -> Settled string)
  (analyzeClothingImage : string -> Settled Client.AnalyzeClothingImageOutput)
  (files : option (list File)) (file : File) (upstream : Upstream) (w : World) :
  TryFitPage.firstFile File files = Some file ->
  (exists e, toBase64 file = Rejected e)
  \/ (exists dataUri e,
        toBase64 file = Fulfilled dataUri /\ analyzeClothingImage dataUri = Rejected e) ->
  exists w',
    TryFitPage.handleFileChange File toBase64 analyzeClothingImage files w = (Normal tt, w')
    /\ trace w' = (trace w ++ [EvToast analysisFailedToast])%list
    /\ calls w' = calls w
    /\ Client.clothingImage (page w') = None
    /\ Client.clothingAnalysis (page w') = None
    /\ Client.compositeImage (page w') = None
    /\ Client.modelImage (page w') = Client.modelImage (page w)
    /\ Client.modelForm (page w') = Client.modelForm (page w)
    /\ Client.analyzing (Client.loadingStates (page w')) = false
    /\ Page.handleCreateTryOn upstream w'
       = (Normal tt,
          {| calls := calls w;
             trace := trace w ++ [EvToast analysisFailedToast; EvToast missingImagesToast];
             page := page w' |}).
Proof.
  intros Hfile Hfail.
  rewrite (handleFileChange_failed File toBase64 analyzeClothingImage files file w Hfile Hfail).
  eexists. split; [reflexivity|].
  repeat (split; [reflexivity|]).
  rewrite handleCreateTryOn_guard by reflexivity.
  cbn [calls trace page]. now rewrite <- app_assoc.
Qed.

(** X13.  An upload that goes through stores the data URI and the
    analysis, discards the composite image, keeps the model image and
    raises no notification.  It overwrites the gender of the form exactly
    when the analysis suggests [male] or [female]; any other suggestion
    leaves the gender as it was, and the other form fields are never
    touched. *)
Theorem upload_sets_gender_from_analysis
  (File : Type) (toBase64 : File -> Settled string)
  (analyzeClothingImage : string -> Settled Client.AnalyzeClothingImageOutput)
  (files : option (list File)) (file : File) (dataUri : string)
  (analysisResult : Client.AnalyzeClothingImageOutput) (w : World) :
  TryFitPage.firstFile File files = Some file ->
  toBase64 file = Fulfilled dataUri ->
  analyzeClothingImage dataUri = Fulfilled analysisResult ->
  exists w',
    TryFitPage.handleFileChange File toBase64 analyzeClothingImage files w = (Normal tt, w')
    /\ trace w' = trace w
    /\ calls w' = calls w
    /\ Client.clothingImage (page w') = Some dataUri
    /\ Client.clothingAnalysis (page w') = Some analysisResult
    /\ Client.compositeImage (page w') = None
    /\ Client.modelImage (page w') = Client.modelImage (page w)
    /\ Client.analyzing (Client.loadingStates (page w')) = false
    /\ Client.pose (Client.modelForm (page w')) = Client.pose (Client.modelForm (page w))
    /\ Client.bodyType (Client.modelForm (page w'))
       = Client.bodyType (Client.modelForm (page w))
    /\ Client.skinTone (Client.modelForm (page w'))
       = Client.skinTone (Client.modelForm (page w))
    /\ Client.viewAngle (Client.modelForm (page w'))
       = Client.viewAngle (Client.modelForm (page w))
    /\ (Client.suggestedGender analysisResult = "male"
        \/ Client.suggestedGender analysisResult = "female" ->
        Client.gender (Client.modelForm (page w')) = Client.suggestedGender analysisResult)
    /\ (Client.suggestedGender analysisResult <> "male" ->
        Client.suggestedGender analysisResult <> "female" ->
        Client.gender (Client.modelForm (page w')) = Client.gender (Client.modelForm (page w))).
Proof.
  intros Hfile Hd Ha.
  rewrite (handleFileChange_analysed File toBase64 analyzeClothingImage files file dataUri
             analysisResult w Hfile Hd Ha).
  eexists. split; [reflexivity|]. cbn [trace calls page Client.clothingImage
    Client.clothingAnalysis Client.compositeImage Client.modelImage Client.loadingStates
    Client.modelForm TryFitPage.withAnalyzing Client.analyzing].
  destruct (String.eqb_spec (Client.suggestedGender analysisResult) "male") as [Hm | Hm];
    destruct (String.eqb_spec (Client.suggestedGender analysisResult) "female") as [Hf | Hf];
    cbn [orb Client.gender Client.pose Client.bodyType Client.skinTone Client.viewAngle];
    repeat split; try reflexivity; try tauto.
Qed.

(** ** One action after the other *)

Lemma settled_initial : settled Client.initialPage.
Proof.
  split; [reflexivity|]. split; [reflexivity|]. intros image H. discriminate.
Qed.

Lemma settled_after_try_on (p : Client.PageState) ci mi an composite :
  Client.loadingStates p
  = {| Client.analyzing := false; Client.generatingModel := false;
       Client.compositing := false |} ->
  ci <> "" -> mi <> "" ->
  composite = None \/ (exists a image, composite = Some (String a image)) ->
  settled (withCells p (Some ci) (Some an) (Some mi) composite
             (Page.withCompositing false (Page.withCompositing true (Client.loadingStates p)))).
Proof.
  intros Hload Hci Hmi Hcomposite. split; [|split].
  - cbn. now rewrite Hload.
  - cbn. discriminate.
  - intros image H. cbn in H. subst composite.
    destruct Hcomposite as [H | (a & rest & H)]; [discriminate|].
    injection H as ->. split; [discriminate|].
    apply passesGuard_some. now exists ci, mi, an.
Qed.

Lemma perform_settled (a : TryFitPage.Action) (w : World) :
  settled (page w) ->
  exists w', TryFitPage.perform a w = (Normal tt, w') /\ settled (page w').
Proof.
  intros Hw. pose proof Hw as (Hload & Hclothing & Hcomposite).
  destruct a as [File toBase64 analyze files | values | upstream values | upstream];
    cbn [TryFitPage.perform].
  - destruct (TryFitPage.firstFile File files) as [file|] eqn:Hfile.
    + destruct (toBase64 file) as [dataUri | e] eqn:Hd.
      * destruct (analyze dataUri) as [analysisResult | e] eqn:Ha.
        -- rewrite (handleFileChange_analysed File toBase64 analyze files file dataUri
                      analysisResult w Hfile Hd Ha).
           eexists. split; [reflexivity|]. unfold settled. cbn. rewrite Hload.
           repeat split; discriminate.
        -- rewrite (handleFileChange_failed File toBase64 analyze files file w Hfile);
             [|right; now exists dataUri, e].
           eexists. split; [reflexivity|]. unfold settled. cbn. rewrite Hload.
           repeat split; discriminate.
      * rewrite (handleFileChange_failed File toBase64 analyze files file w Hfile);
          [|left; now exists e].
        eexists. split; [reflexivity|]. unfold settled. cbn. rewrite Hload.
        repeat split; discriminate.
    + rewrite (handleFileChange_no_file File toBase64 analyze files w Hfile).
      eexists. split; [reflexivity | exact Hw].
  - eexists. split; [reflexivity | exact Hw].
  - destruct (ai_model_frame upstream
                {| GenerateAiModel.description := modelDescriptionOf values |}
                (onPage w (withCells (page w) (Client.clothingImage (page w))
                             (Client.clothingAnalysis (page w)) None None
                             (TryFitPage.withGeneratingModel true
                                (Client.loadingStates (page w))))))
      as (c & n & evs & Hflow & _).
    rewrite (handleGenerateModel_run upstream values w c n evs Hflow).
    eexists. split; [reflexivity|].
    destruct c as [result | e]; unfold settled; cbn; rewrite Hload;
      (repeat split; first [exact Hclothing | discriminate]).
  - destruct (passesGuard (page w)) eqn:G.
    + pose proof G as G'.
      apply passesGuard_some in G as (ci & mi & an & Hci & Hci' & Hmi & Hmi' & Han).
      destruct (single_view_frame upstream (tryOnInput (page w) ci mi an)
                  (onPage w (withCells (page w) (Some ci) (Some an) (Some mi) None
                               (Page.withCompositing true (Client.loadingStates (page w))))))
        as (c & n & evs & Hflow & _).
      rewrite (handleCreateTryOn_after_guard upstream w ci mi an c n evs
                 Hci Hci' Hmi Hmi' Han Hflow).
      eexists. split; [reflexivity|].
      destruct c as [[[|a image]]|e];
        apply settled_after_try_on; try assumption; try (now left).
      right. now exists a, image.
    + rewrite (handleCreateTryOn_guard upstream w (passesGuard_false _ G)).
      eexists. split; [reflexivity | exact Hw].
Qed.

(** X14.  When the actions of the user (choosing a file, editing the
    form, generating a model, creating a try-on) run one after the other,
    each to its end, from a settled page, none of them throws and the page
    is settled again after each: no loading flag is left up, a clothing
    image is on the page only with its analysis, and a composite image is
    never empty and is on the page only together with a non-empty clothing
    image, a non-empty model image and the analysis. *)
Theorem actions_keep_the_page_settled (actions : list TryFitPage.Action) (w : World) :
  settled (page w) ->
  exists w',
    TryFitPage.performAll actions w = (Normal tt, w') /\ settled (page w').
Proof.
  revert w. induction actions as [|a actions IH]; intros w Hw.
  - exists w. now split.
  - destruct (perform_settled a w Hw) as (w1 & H1 & Hw1).
    destruct (IH w1 Hw1) as (w' & H' & Hw').
    exists w'. split; [|exact Hw'].
    cbn [TryFitPage.performAll]. unfold bind. now rewrite H1.
Qed.

(** X15.  On a settled page, once hydrated, the buttons agree with the
    handlers: "Create Virtual Try-On" is enabled exactly when the guard of
    [handleCreateTryOn] lets the page through; "Download Result" is enabled
    exactly when [downloadImage] produces a link, and exactly when the
    progress indicator shows step 3 with the bar at 100%. *)
Theorem buttons_agree_with_handlers (p : Client.PageState) :
  settled p ->
  (TryFitPage.isCreateTryOnDisabled true p = false <-> passesGuard p = true)
  /\ (TryFitPage.isDownloadDisabled true p = false <->
      exists image,
        TryFitPage.downloadImage p
        = Some {| TryFitPage.href := image;
                  TryFitPage.download :=
                    "tryfit-" ++ Client.viewAngle (Client.modelForm p) ++ "-view.png" |})
  /\ (TryFitPage.isDownloadDisabled true p = false <->
      TryFitPage.progressStep p = "3" /\ TryFitPage.progressWidth p = "100%").
Proof.
  intros (Hload & Hclothing & Hcomposite).
  unfold TryFitPage.isCreateTryOnDisabled, TryFitPage.isDownloadDisabled,
    TryFitPage.downloadImage, TryFitPage.progressStep, TryFitPage.progressWidth, passesGuard
    in *.
  rewrite Hload. cbn [negb Client.compositing].
  destruct (Client.clothingAnalysis p) as [an|] eqn:Han.
  - destruct (Client.compositeImage p) as [[|a image]|] eqn:Hc.
    + destruct (Hcomposite "" eq_refl) as [Hne _]. contradiction.
    + destruct (Hcomposite (String a image) eq_refl) as [_ Hg].
      apply andb_true_iff in Hg as [Hg _]. apply andb_true_iff in Hg as [Hci Hmi].
      rewrite Hci, Hmi. cbn.
      repeat split; try reflexivity. intros _. now eexists.
    + destruct (Js.truthy (Client.clothingImage p)), (Js.truthy (Client.modelImage p)); cbn;
        repeat split; try congruence; try discriminate;
        try (intros [image H]; discriminate); try (intros [H _]; discriminate).
  - rewrite (Hclothing eq_refl). cbn.
    destruct (Client.compositeImage p) as [[|a image]|] eqn:Hc.
    + destruct (Hcomposite "" eq_refl) as [Hne _]. contradiction.
    + destruct (Hcomposite (String a image) eq_refl) as [_ Hg].
      rewrite (Hclothing eq_refl) in Hg. discriminate.
    + cbn. repeat split; try congruence; try discriminate;
        try (intros [image H]; discriminate); try (intros [H _]; discriminate).
Qed.

(** ** The properties of the page on concrete runs *)

Lemma try_on_request_payload_run :
  exists text sent,
    trace (snd (Page.handleCreateTryOn Sample.alwaysImage (Sample.worldOn Sample.pageReady)))
    = (trace (Sample.worldOn Sample.pageReady)
       ++ EvGenerate
            {| model := "googleai/gemini-2.0-flash-preview-image-generation";
               prompt := PromptParts [ MediaPart "data:image/png;base64,AAAA";
                                       MediaPart "data:image/png;base64,BBBB";
                                       TextPart text ];
               responseModalities := ["TEXT"; "IMAGE"] |} :: sent)%list
    /\ Js.includes text
         ("Clothing: "
          ++ (Client.garmentType Scenario.analysis ++ " with features: "
              ++ Js.join ", " (Client.clothingFeatures Scenario.analysis))) = true
    /\ Js.includes text
         ("Model: "
          ++ ("A "
              ++ Client.gender (Client.modelForm (page (Sample.worldOn Sample.pageReady)))
              ++ " model with "
              ++ Client.skinTone (Client.modelForm (page (Sample.worldOn Sample.pageReady)))
              ++ " and an "
              ++ Client.bodyType (Client.modelForm (page (Sample.worldOn Sample.pageReady)))
              ++ ". The model is "
              ++ Client.pose (Client.modelForm (page (Sample.worldOn Sample.pageReady)))
              ++ ".")) = true.
Proof.
  apply (try_on_request_payload Sample.alwaysImage (Sample.worldOn Sample.pageReady)
           "data:image/png;base64,AAAA" "data:image/png;base64,BBBB" Scenario.analysis).
  - reflexivity.
  - discriminate.
  - reflexivity.
  - discriminate.
  - reflexivity.
  - reflexivity.
Defined.

Lemma try_on_without_image_reports_failure_run :
  exists w' evs,
    Page.handleCreateTryOn Sample.neverImage (Sample.worldOn Sample.pageReady)
    = (Normal tt, w')
    /\ trace w'
       = (trace (Sample.worldOn Sample.pageReady) ++ evs ++ [EvToast tryOnFailedToast])%list
    /\ toasts evs = []
    /\ generateCount evs = 1
    /\ calls w' = calls (Sample.worldOn Sample.pageReady) + 1
    /\ Client.compositeImage (page w') = None
    /\ Client.compositing (Client.loadingStates (page w')) = false.
Proof.
  apply (try_on_without_image_reports_failure Sample.neverImage
           (Sample.worldOn Sample.pageReady) 0 Sample.withoutImage).
  - reflexivity.
  - reflexivity.
  - lia.
  - intros opts j Hj. lia.
  - intros opts. reflexivity.
  - exact I.
Defined.

Lemma generate_model_without_image_reports_failure_run :
  exists w' evs,
    TryFitPage.handleGenerateModel Sample.neverImage
      (Client.modelForm Client.initialPage) world0 = (Normal tt, w')
    /\ trace w' = (trace world0 ++ evs ++ [EvToast modelFailedToast])%list
    /\ toasts evs = []
    /\ generateCount evs = 1
    /\ calls w' = calls world0 + 1
    /\ Client.modelImage (page w') = None
    /\ Client.generatingModel (Client.loadingStates (page w')) = false.
Proof.
  apply (generate_model_without_image_reports_failure Sample.neverImage
           (Client.modelForm Client.initialPage) world0 0 Sample.withoutImage).
  - lia.
  - intros opts j Hj. lia.
  - intros opts. reflexivity.
  - reflexivity.
Defined.

Lemma generate_model_stores_empty_image_run :
  exists w' evs,
    TryFitPage.handleGenerateModel Scenario.alwaysEmptyUrl
      (Client.modelForm Client.initialPage) (Sample.worldOn Sample.pageReady)
    = (Normal tt, w')
    /\ trace w' = (trace (Sample.worldOn Sample.pageReady) ++ evs)%list
    /\ toasts evs = []
    /\ Client.modelImage (page w') = Some ""
    /\ passesGuard (page w') = false.
Proof.
  apply (generate_model_stores_empty_image Scenario.alwaysEmptyUrl
           (Client.modelForm Client.initialPage) (Sample.worldOn Sample.pageReady) 0
           {| media := Some {| url := "" |} |}).
  - lia.
  - intros opts j Hj. lia.
  - intros opts. reflexivity.
  - reflexivity.
Defined.

Lemma failed_upload_blocks_try_on_run :
  exists w',
    TryFitPage.handleFileChange string Scenario.unreadable Scenario.analysedAsSuit
      (Some ["suit.png"]) (Sample.worldOn Sample.pageReady) = (Normal tt, w')
    /\ trace w'
       = (trace (Sample.worldOn Sample.pageReady) ++ [EvToast analysisFailedToast])%list
    /\ calls w' = calls (Sample.worldOn Sample.pageReady)
    /\ Client.clothingImage (page w') = None
    /\ Client.clothingAnalysis (page w') = None
    /\ Client.compositeImage (page w') = None
    /\ Client.modelImage (page w')
       = Client.modelImage (page (Sample.worldOn Sample.pageReady))
    /\ Client.modelForm (page w')
       = Client.modelForm (page (Sample.worldOn Sample.pageReady))
    /\ Client.analyzing (Client.loadingStates (page w')) = false
    /\ Page.handleCreateTryOn Sample.alwaysImage w'
       = (Normal tt,
          {| calls := calls (Sample.worldOn Sample.pageReady);
             trace := trace (Sample.worldOn Sample.pageReady)
                      ++ [EvToast analysisFailedToast; EvToast missingImagesToast];
             page := page w' |}).
Proof.
  apply (failed_upload_blocks_try_on string Scenario.unreadable Scenario.analysedAsSuit
           (Some ["suit.png"]) "suit.png" Sample.alwaysImage
           (Sample.worldOn Sample.pageReady)).
  - reflexivity.
  - left. eexists. reflexivity.
Defined.

Lemma upload_sets_gender_from_analysis_run :
  exists w',
    TryFitPage.handleFileChange string Scenario.readable Scenario.analysedAsSuit
      (Some ["suit.png"]) world0 = (Normal tt, w')
    /\ trace w' = trace world0
    /\ calls w' = calls world0
    /\ Client.clothingImage (page w') = Some "data:image/png;base64,suit.png"
    /\ Client.clothingAnalysis (page w') = Some Scenario.suitAnalysis
    /\ Client.compositeImage (page w') = None
    /\ Client.modelImage (page w') = Client.modelImage (page world0)
    /\ Client.analyzing (Client.loadingStates (page w')) = false
    /\ Client.pose (Client.modelForm (page w')) = Client.pose (Client.modelForm (page world0))
    /\ Client.bodyType (Client.modelForm (page w'))
       = Client.bodyType (Client.modelForm (page world0))
    /\ Client.skinTone (Client.modelForm (page w'))
       = Client.skinTone (Client.modelForm (page world0))
    /\ Client.viewAngle (Client.modelForm (page w'))
       = Client.viewAngle (Client.modelForm (page world0))
    /\ (Client.suggestedGender Scenario.suitAnalysis = "male"
        \/ Client.suggestedGender Scenario.suitAnalysis = "female" ->
        Client.gender (Client.modelForm (page w'))
        = Client.suggestedGender Scenario.suitAnalysis)
    /\ (Client.suggestedGender Scenario.suitAnalysis <> "male" ->
        Client.suggestedGender Scenario.suitAnalysis <> "female" ->
        Client.gender (Client.modelForm (page w'))
        = Client.gender (Client.modelForm (page world0))).
Proof.
  apply (upload_sets_gender_from_analysis string Scenario.readable Scenario.analysedAsSuit
           (Some ["suit.png"]) "suit.png" "data:image/png;base64,suit.png"
           Scenario.suitAnalysis world0).
  - reflexivity.
  - reflexivity.
  - reflexivity.
Defined.

Lemma actions_keep_the_page_settled_run :
  exists w',
    TryFitPage.performAll Scenario.session world0 = (Normal tt, w') /\ settled (page w').
Proof.
  apply (actions_keep_the_page_settled Scenario.session world0).
  split; [reflexivity|]. split; [reflexivity|]. intros image H. discriminate H.
Defined.

Lemma buttons_agree_with_handlers_run :
  (TryFitPage.isCreateTryOnDisabled true Sample.pageReady = false
   <-> passesGuard Sample.pageReady = true)
  /\ (TryFitPage.isDownloadDisabled true Sample.pageReady = false <->
      exists image,
        TryFitPage.downloadImage Sample.pageReady
        = Some {| TryFitPage.href := image;
                  TryFitPage.download :=
                    "tryfit-" ++ Client.viewAngle (Client.modelForm Sample.pageReady)
                    ++ "-view.png" |})
  /\ (TryFitPage.isDownloadDisabled true Sample.pageReady = false <->
      TryFitPage.progressStep Sample.pageReady = "3"
      /\ TryFitPage.progressWidth Sample.pageReady = "100%").
Proof.
  apply (buttons_agree_with_handlers Sample.pageReady).
  split; [reflexivity|]. split; [discriminate|]. intros image H. discriminate H.
Defined.

(** The session ends with the composite on the page: three upstream
    attempts in all (the model after one overload failure, then the
    try-on), no notification, and a download named after the side view. *)
Lemma session_run :
  exists w',
    TryFitPage.performAll Scenario.session world0 = (Normal tt, w')
    /\ Client.compositeImage (page w') = Some Sample.image
    /\ Client.gender (Client.modelForm (page w')) = "male"
    /\ calls w' = 3
    /\ toasts (trace w') = []
    /\ TryFitPage.downloadImage (page w')
       = Some {| TryFitPage.href := Sample.image;
                 TryFitPage.download := "tryfit-side-view.png" |}.
Proof.
  eexists. split; [vm_compute; reflexivity|].
  repeat (split; [vm_compute; reflexivity|]). vm_compute. reflexivity.
Qed.

(** X16.  The cast of the form's view angle to [front | side | back] in
    [handleCreateTryOn] checks nothing, but the input schema of the flow
    does: with any other view angle in the form, the handler gets past its
    guard, makes no upstream attempt, and ends with the notification
    "Virtual Try-On Failed", no composite image and the compositing flag
    down. *)
Theorem try_on_with_unknown_angle_fails_without_call (upstream : Upstream) (w : World) :
  passesGuard (page w) = true ->
  Genkit.z_enum ["front"; "side"; "back"]
    (Client.viewAngle (Client.modelForm (page w))) = false ->
  exists w',
    Page.handleCreateTryOn upstream w = (Normal tt, w')
    /\ calls w' = calls w
    /\ trace w' = (trace w ++ [EvToast tryOnFailedToast])%list
    /\ Client.compositeImage (page w') = None
    /\ Client.compositing (Client.loadingStates (page w')) = false.
Proof.
  intros G Hangle.
  apply passesGuard_some in G as (ci & mi & an & Hci & Hci' & Hmi & Hmi' & Han).
  pose (started := onPage w (withCells (page w) (Some ci) (Some an) (Some mi) None
                               (Page.withCompositing true (Client.loadingStates (page w))))).
  assert (SingleViewComposite.generateSingleViewComposite upstream
            (tryOnInput (page w) ci mi an) started
          = (Throws Genkit.schemaError, advance started 0 [])) as Hflow.
  { rewrite advance_0. apply single_view_refused.
    unfold SingleViewComposite.SingleViewCompositeInputSchema, tryOnInput.
    cbn [SingleViewComposite.viewAngle]. rewrite Hangle. apply andb_false_r. }
  rewrite (handleCreateTryOn_after_guard upstream w ci mi an _ _ _
             Hci Hci' Hmi Hmi' Han Hflow).
  eexists. split; [reflexivity|].
  cbn [calls trace page withCells Client.compositeImage Client.loadingStates
       Page.withCompositing Client.compositing].
  rewrite app_nil_r, Nat.add_0_r. now repeat split.
Qed.

Lemma try_on_with_unknown_angle_fails_without_call_run :
  exists w',
    Page.handleCreateTryOn Sample.alwaysImage (Sample.worldOn Scenario.pageWithDiagonalView)
    = (Normal tt, w')
    /\ calls w' = calls (Sample.worldOn Scenario.pageWithDiagonalView)
    /\ trace w'
       = (trace (Sample.worldOn Scenario.pageWithDiagonalView)
          ++ [EvToast tryOnFailedToast])%list
    /\ Client.compositeImage (page w') = None
    /\ Client.compositing (Client.loadingStates (page w')) = false.
Proof.
  apply (try_on_with_unknown_angle_fails_without_call Sample.alwaysImage
           (Sample.worldOn Scenario.pageWithDiagonalView)).
  - reflexivity.
  - reflexivity.
Defined.
